(** * hubble-server: the role gate and the plan resource handlers

    A shallow embedding of [src/app/middleware/requireRole.js] and of the
    plan controller ([toExternal], [planSchema], [filterSchema],
    [attachRoutes]) together with the properties their specification states.

    JavaScript values are kept dynamically typed ([jsval]); objects that are
    used as records of named properties (request bodies, query strings,
    validated values, Mongoose documents) are finite maps from property
    names to values.  Handlers thread an explicit [World] (the plan and user
    collections, a log of store operations, the clock) and finish with an
    [Outcome]: a response, a forward to the next middleware, or an uncaught
    exception. *)

From Stdlib Require Import ZArith Lia Ascii String.
From stdpp Require Import base option strings list gmap.

Local Open Scope string_scope.
Local Open Scope Z_scope.

(** ** Strings

    A JavaScript string is modelled as a [string] of code units below 256
    (ASCII and Latin-1); the text the claims are about (codes, identifiers,
    tags) is ASCII. *)

Module Js.

Definition code (c : ascii) : Z := Z.of_nat (nat_of_ascii c).

Definition isDigit (c : ascii) : bool := (48 <=? code c) && (code c <=? 57).
Definition isLower (c : ascii) : bool := (97 <=? code c) && (code c <=? 122).
Definition isUpper (c : ascii) : bool := (65 <=? code c) && (code c <=? 90).
Definition isHexLetter (c : ascii) : bool :=
  ((97 <=? code c) && (code c <=? 102)) || ((65 <=? code c) && (code c <=? 70)).

(** White space removed by [String.prototype.trim]: TAB, LF, VT, FF, CR,
    SP and the no-break space. *)
Definition isSpace (c : ascii) : bool :=
  ((9 <=? code c) && (code c <=? 13)) || (code c =? 32) || (code c =? 160).

(** The capital letters of Latin-1 beyond ASCII (all of 192..222 but the
    multiplication sign). *)
Definition isUpperLatin1 (c : ascii) : bool :=
  (192 <=? code c) && (code c <=? 222) && negb (code c =? 215).

Definition lowerChar (c : ascii) : ascii :=
  if isUpper c || isUpperLatin1 c then ascii_of_nat (nat_of_ascii c + 32) else c.

Fixpoint all (p : ascii -> bool) (s : string) : bool :=
  match s with
  | EmptyString => true
  | String c r => p c && all p r
  end.

Fixpoint toLowerCase (s : string) : string :=
  match s with
  | EmptyString => EmptyString
  | String c r => String (lowerChar c) (toLowerCase r)
  end.

Fixpoint trimStart (s : string) : string :=
  match s with
  | EmptyString => EmptyString
  | String c r => if isSpace c then trimStart r else s
  end.

Fixpoint trimEnd (s : string) : string :=
  match s with
  | EmptyString => EmptyString
  | String c r =>
      match trimEnd r with
      | EmptyString => if isSpace c then EmptyString else String c EmptyString
      | r' => String c r'
      end
  end.

Definition trim (s : string) : string := trimEnd (trimStart s).

Definition len (s : string) : Z := Z.of_nat (String.length s).

(** [prefix_ci p s]: [p] is a prefix of [s] up to ASCII case. *)
Fixpoint prefix_ci (p s : string) : bool :=
  match p, s with
  | EmptyString, _ => true
  | String _ _, EmptyString => false
  | String a p', String b s' =>
      bool_decide (lowerChar a = lowerChar b) && prefix_ci p' s'
  end.

(** [contains_ci p s]: [p] occurs in [s] up to ASCII case. *)
Fixpoint contains_ci (p s : string) : bool :=
  prefix_ci p s ||
  match s with
  | EmptyString => false
  | String _ s' => contains_ci p s'
  end.

End Js.

(** ** Object identifiers

    [Types.ObjectId] of the database driver.  An identifier is twelve bytes,
    kept here in its canonical form, the 24 lower-case hexadecimal digits of
    [toHexString()]. *)

Record ObjectId := Oid { toHexString : string }.

Global Instance ObjectId_eq_dec : EqDecision ObjectId.
Proof. solve_decision. Defined.

Definition isHex (c : ascii) : bool := Js.isDigit c || Js.isHexLetter c.

Definition hexDigit (n : nat) : ascii :=
  if (n <? 10)%nat then ascii_of_nat (48 + n) else ascii_of_nat (87 + n).

Fixpoint hexOfBytes (s : string) : string :=
  match s with
  | EmptyString => EmptyString
  | String c r =>
      String (hexDigit (nat_of_ascii c / 16))
        (String (hexDigit (nat_of_ascii c mod 16)) (hexOfBytes r))
  end.

(** [new Types.ObjectId(s)] for a string argument: a string of 24
    hexadecimal digits (either case) or a string of 12 bytes is accepted,
    anything else makes the constructor throw ([None]). *)
Definition newObjectId (s : string) : option ObjectId :=
  if (String.length s =? 24)%nat && Js.all isHex s then Some (Oid (Js.toLowerCase s))
  else if (String.length s =? 12)%nat then Some (Oid (hexOfBytes s))
  else None.

(** ** Primitive values

    What the JavaScript platform and the libraries the controller is built
    on provide: IEEE numbers, the numeric and date conversions of the
    validation engine, the calendar functions of [date-fns], the system
    clock, the identifier generator of the database driver and the
    configured page-size limit ([constants.PAGINATE_MAX_LIMIT]).  The
    development is parametric in them. *)

(** What [Model.paginate] of the pagination plug-in computes for a page:
    the metadata of the result and the slice of the matching documents. *)
Record PageMeta (N : Type) := mkPageMeta {
  totalDocs : N;
  limit : N;
  totalPages : N;
  prevPage : option N;      (* [None] is [null] *)
  nextPage : option N;
  hasPrevPage : bool;
  hasNextPage : bool;
  skip : nat;               (* matching documents skipped *)
  take : nat;               (* and returned *)
}.

Arguments totalDocs {N}. Arguments limit {N}. Arguments totalPages {N}.
Arguments prevPage {N}. Arguments nextPage {N}. Arguments hasPrevPage {N}.
Arguments hasNextPage {N}. Arguments skip {N}. Arguments take {N}.

Class Platform := {
  number : Type;
  number_eq_dec :: EqDecision number;
  (** the number denoted by an integer literal *)
  number_of_Z : Z -> number;
  number_add : number -> number -> number;
  number_leb : number -> number -> bool;
  (** [Math.trunc(v) - v === 0] *)
  number_is_integer : number -> bool;
  (** neither [0] nor [NaN] *)
  number_truthy : number -> bool;
  number_truthy_of_Z : forall z, number_truthy (number_of_Z z) = negb (z =? 0);
  (** [toInteger] of [date-fns]: the number without its fraction, [None]
      for NaN; integers up to [Number.MAX_SAFE_INTEGER] are numbers *)
  number_to_integer : number -> option Z;
  number_to_integer_of_Z : forall z,
    Z.abs z <= 9007199254740991 -> number_to_integer (number_of_Z z) = Some z;
  (** the conversion of text by [joi.number()]: [None] when the text is
      not numeric (it stays a string), otherwise the number or the type of
      the error raised by the conversion *)
  number_coerce : string -> option (string + number);
  (** the base check of [joi.number()] on a number: the type of the error
      ([number.infinity], [number.base] for NaN, [number.unsafe]), if any *)
  number_check : number -> option string;
  (** the conversions of [joi.date()] to milliseconds since the epoch *)
  date_of_string : string -> option Z;
  date_of_number : number -> option Z;
  (** [date-fns] on valid instants (milliseconds since the epoch) *)
  subMonths : Z -> Z -> Z;
  startOfDay : Z -> Z;
  endOfDay : Z -> Z;
  (** the instant read by the [k]-th evaluation of [new Date()] *)
  clock : nat -> Z;
  (** the [k]-th identifier generated for a new document *)
  generateId : nat -> ObjectId;
  PAGINATE_MAX_LIMIT : Z;
  (** the page of [count] matching documents for the options [limit] and
      [page] ([None] when the option is not a number) *)
  paginate : nat -> option number -> option number -> PageMeta number;
}.

(** A [Date] object: a valid instant or the Invalid Date. *)
Inductive JsDate :=
  | Instant (ms : Z)
  | InvalidDate.

Global Instance JsDate_eq_dec : EqDecision JsDate.
Proof. solve_decision. Defined.

Section Values.
Context `{Platform}.

Inductive jsval :=
  | JUndefined
  | JNull
  | JBool (b : bool)
  | JNum (n : number)
  | JStr (s : string)
  | JDate (d : JsDate)
  | JId (o : ObjectId)
  | JObject.   (* any other object, array or function *)

Global Instance jsval_eq_dec : EqDecision jsval.
Proof. solve_decision. Defined.

(** [o[k]] / [o.k]: a missing property reads as [undefined]. *)
Definition prop (o : gmap string jsval) (k : string) : jsval :=
  default JUndefined (o !! k).

(** Truthiness of a value in a condition. *)
Definition truthy (v : jsval) : bool :=
  match v with
  | JUndefined | JNull => false
  | JBool b => b
  | JNum n => number_truthy n
  | JStr s => negb (bool_decide (s = ""))
  | JDate _ | JId _ | JObject => true
  end.

End Values.

Abbreviation obj := (gmap string jsval).

(** ** The validation engine

    The part of joi that [planSchema] and [filterSchema] use, with the
    default preferences of [schema.validate(value)]: values are converted,
    the first error ends the validation, unknown keys are refused. *)

Module joi.

(** A validation error: joi's error type ([any.required], [string.min],
    ...) and the key it is reported for; [error.message] is a function of
    the two. *)
Record Error := mkError { errType : string; errKey : string }.

Inductive Kind := KString | KNumber | KBoolean | KDate.

Inductive Rule :=
  | Trim
  | Lowercase
  | Alphanum
  | Integer
  | Min (limit : Z)
  | Max (limit : Z).

Global Instance Rule_eq_dec : EqDecision Rule.
Proof. solve_decision. Defined.

Section Engine.
Context `{Platform}.

(** [when(ref, { is: literal, then: joi.required() })] *)
Record Condition := mkCondition { condRef : string; condIs : jsval }.

Record Schema := mkSchema {
  kind : Kind;
  rules : list Rule;          (* in the order they were added *)
  allowed : list jsval;       (* the values of [valid()] and [allow()] *)
  only : bool;                (* [valid()]: no other value passes *)
  emptyString : bool;         (* [empty("")] *)
  isRequired : bool;          (* [required()] *)
  dflt : option jsval;        (* [default(v)] *)
  conditions : list Condition;
}.

Definition base (k : Kind) : Schema :=
  mkSchema k [] [] false false false None [].

Definition string_ : Schema := base KString.
Definition number_ : Schema := base KNumber.
Definition boolean : Schema := base KBoolean.
Definition date : Schema := base KDate.

Definition rule (r : Rule) (s : Schema) : Schema :=
  mkSchema (kind s) (rules s ++ [r]) (allowed s) (only s) (emptyString s)
    (isRequired s) (dflt s) (conditions s).

Definition trim := rule Trim.
Definition lowercase := rule Lowercase.
Definition alphanum := rule Alphanum.
Definition integer := rule Integer.
Definition min (n : Z) := rule (Min n).
Definition max (n : Z) := rule (Max n).

Definition required (s : Schema) : Schema :=
  mkSchema (kind s) (rules s) (allowed s) (only s) (emptyString s)
    true (dflt s) (conditions s).

Definition valid (vs : list jsval) (s : Schema) : Schema :=
  mkSchema (kind s) (rules s) (allowed s ++ vs) true (emptyString s)
    (isRequired s) (dflt s) (conditions s).

Definition allow (v : jsval) (s : Schema) : Schema :=
  mkSchema (kind s) (rules s) (allowed s ++ [v]) (only s) (emptyString s)
    (isRequired s) (dflt s) (conditions s).

(** [empty("")] *)
Definition empty (s : Schema) : Schema :=
  mkSchema (kind s) (rules s) (allowed s) (only s) true
    (isRequired s) (dflt s) (conditions s).

Definition default_ (v : jsval) (s : Schema) : Schema :=
  mkSchema (kind s) (rules s) (allowed s) (only s) (emptyString s)
    (isRequired s) (Some v) (conditions s).

(** [when(ref, { is: v, then: joi.required() })] *)
Definition when (ref : string) (v : jsval) (s : Schema) : Schema :=
  mkSchema (kind s) (rules s) (allowed s) (only s) (emptyString s)
    (isRequired s) (dflt s) (conditions s ++ [mkCondition ref v]).

Definition hasRule (r : Rule) (s : Schema) : bool :=
  bool_decide (r ∈ rules s).

(** A condition holds when the referenced sibling is present and equal to
    the literal; a sibling that does not exist reads as [undefined] and
    matches no literal. *)
Definition holds (parent : obj) (c : Condition) : bool :=
  negb (bool_decide (prop parent (condRef c) = JUndefined)) &&
  bool_decide (prop parent (condRef c) = condIs c).

Definition presence (s : Schema) (parent : obj) : bool :=
  isRequired s || existsb (holds parent) (conditions s).

(** Conversion of the raw value to the type of the schema. *)
Definition coerce (s : Schema) (v : jsval) : string + jsval :=
  match kind s, v with
  | KString, JStr t =>
      let t1 := if hasRule Lowercase s then Js.toLowerCase t else t in
      let t2 := if hasRule Trim s then Js.trim t1 else t1 in
      inr (JStr t2)
  | KNumber, JStr t =>
      match number_coerce t with
      | None => inr v
      | Some (inl e) => inl e
      | Some (inr n) => inr (JNum n)
      end
  | KBoolean, JStr t =>
      if bool_decide (Js.toLowerCase t = "true") then inr (JBool true)
      else if bool_decide (Js.toLowerCase t = "false") then inr (JBool false)
      else inr v
  | KDate, JStr t =>
      match date_of_string t with
      | Some ms => inr (JDate (Instant ms))
      | None => inr v
      end
  | KDate, JNum n =>
      match date_of_number n with
      | Some ms => inr (JDate (Instant ms))
      | None => inr v
      end
  | _, _ => inr v
  end.

(** The check of the base type. *)
Definition checkBase (s : Schema) (v : jsval) : option string :=
  match kind s, v with
  | KString, JStr t => if bool_decide (t = "") then Some "string.empty" else None
  | KString, _ => Some "string.base"
  | KNumber, JNum n => number_check n
  | KNumber, _ => Some "number.base"
  | KBoolean, JBool _ => None
  | KBoolean, _ => Some "boolean.base"
  | KDate, JDate (Instant _) => None
  | KDate, _ => Some "date.base"
  end.

Definition isAlnum (c : ascii) : bool :=
  Js.isDigit c || Js.isLower c || Js.isUpper c.

(** One rule on a value of the base type; [trim] and [lowercase] have
    already been applied by the conversion. *)
Definition checkRule (r : Rule) (v : jsval) : option string :=
  match r, v with
  | Alphanum, JStr t =>
      if Js.all isAlnum t && negb (bool_decide (t = "")) then None
      else Some "string.alphanum"
  | Min n, JStr t => if n <=? Js.len t then None else Some "string.min"
  | Max n, JStr t => if Js.len t <=? n then None else Some "string.max"
  | Integer, JNum x => if number_is_integer x then None else Some "number.integer"
  | Min n, JNum x => if number_leb (number_of_Z n) x then None else Some "number.min"
  | Max n, JNum x => if number_leb x (number_of_Z n) then None else Some "number.max"
  | _, _ => None
  end.

Fixpoint checkRules (rs : list Rule) (v : jsval) : option string :=
  match rs with
  | [] => None
  | r :: rest =>
      match checkRule r v with
      | Some e => Some e
      | None => checkRules rest v
      end
  end.

(** The value of a key that is absent after conversion. *)
Definition finalizeAbsent (s : Schema) : jsval :=
  match dflt s with
  | Some d => d
  | None => JUndefined
  end.

(** Validation of one key: conversion, [empty], presence, allowed values,
    base type, rules, default. *)
Definition validateKey (key : string) (s : Schema) (parent : obj) (raw : jsval)
  : Error + jsval :=
  match coerce s raw with
  | inl e => inl (mkError e key)
  | inr v0 =>
      let v := if emptyString s && bool_decide (v0 = JStr "") then JUndefined else v0 in
      if bool_decide (v = JUndefined) then
        if presence s parent then inl (mkError "any.required" key)
        else inr (finalizeAbsent s)
      else if bool_decide (v ∈ allowed s) then inr v
      else if only s then inl (mkError "any.only" key)
      else
        match checkBase s v with
        | Some e => inl (mkError e key)
        | None =>
            match checkRules (rules s) v with
            | Some e => inl (mkError e key)
            | None => inr v
            end
        end
  end.

(** Writing the result of a key back into the value under validation. *)
Definition assign (key : string) (v : jsval) (value : obj) : obj :=
  if bool_decide (v = JUndefined) then delete key value else <[key := v]> value.

(** [joi.object({...})]: the keys in the order of declaration. *)
Definition ObjectSchema := list (string * Schema).

Fixpoint validateKeys (keys : ObjectSchema) (value : obj) : Error + obj :=
  match keys with
  | [] => inr value
  | (key, s) :: rest =>
      match validateKey key s value (prop value key) with
      | inl e => inl e
      | inr v => validateKeys rest (assign key v value)
      end
  end.

(** The schema declared for a key. *)
Fixpoint child (key : string) (keys : ObjectSchema) : option Schema :=
  match keys with
  | [] => None
  | (k, s) :: rest => if bool_decide (key = k) then Some s else child key rest
  end.

(** The first key of the value that the schema does not declare. *)
Definition unknownKey (keys : ObjectSchema) (value : obj) : option string :=
  head (filter (fun k => k ∉ keys.*1) (map_to_list value).*1).

(** [schema.validate(value)]: [inl error] or [inr value]. *)
Definition validate (keys : ObjectSchema) (value : obj) : Error + obj :=
  match validateKeys keys value with
  | inl e => inl e
  | inr value' =>
      match unknownKey keys value with
      | Some k => inl (mkError "object.unknown" k)
      | None => inr value'
      end
  end.

End Engine.
End joi.

Notation "s |> f" := (f s) (at level 45, left associativity, only parsing).

(** ** Status codes *)

(** Modelled from the spec: [../util/httpStatus] is not part of the
    sources; the codes are those of the responses the specification lists
    (200, 201, 400, 403, 404). *)
Module httpStatus.
Definition OK : Z := 200.
Definition CREATED : Z := 201.
Definition BAD_REQUEST : Z := 400.
Definition FORBIDDEN : Z := 403.
Definition NOT_FOUND : Z := 404.
End httpStatus.

(** ** Requests, responses and the world *)

Inductive JsError :=
  | TypeError (message : string)
  | AssertionError (message : string)
  | CastError (path : string)
  | StoreFailure (message : string).

(** The error thrown by [new Types.ObjectId(s)] on a string that is not an
    identifier. *)
Definition objectIdError : JsError :=
  TypeError
    "Argument passed in must be a single String of 12 bytes or a string of 24 hex characters".

Section Controller.
Context `{Platform}.

(** The [message] of a JSON error body: a fixed text, or the message of a
    validation error. *)
Inductive Message :=
  | Text (text : string)
  | ErrorMessage (error : joi.Error).

Inductive Body :=
  | JsonMessage (message : Message)                 (* [{ message }] *)
  | JsonObject (o : obj)
  | JsonPage (result : obj) (records : list obj).   (* [result] with [result.records] *)

Inductive Outcome :=
  | Responded (status : Z) (body : Body)   (* [response.status(s).json(b)] *)
  | Forwarded                              (* [next()] *)
  | Threw (e : JsError).                   (* an exception nobody catches *)

Record Request := mkRequest {
  body : obj;                 (* [request.body] *)
  query : obj;                (* [request.query] *)
  params_identifier : string; (* [request.params.identifier] *)
  user_identifier : string;   (* [request.user.identifier] *)
}.

(** A query condition on one path. *)
Inductive Condition :=
  | Equals (v : jsval)               (* [{ path: v }] *)
  | Range (gte lte : jsval)          (* [{ path: { $gte, $lte } }] *)
  | Matches (text : string).         (* [{ path: regex }]: see [RegExp_escaped] *)

(** A clause of a filter object. *)
Inductive Clause :=
  | Field (path : string) (c : Condition)
  | Or (alternatives : list (string * Condition)).   (* [$or] *)

Definition Filter := list Clause.

(** The operations issued to the record store, with their arguments. *)
Inductive StoreOp :=
  | UserFindById (id : string)
  | PlanFindOne (f : Filter)
  | PlanFindById (id ownerId : ObjectId)
  | PlanSave (doc : obj)
  | PlanPaginate (f : Filter) (limit page : option number).

Record World := mkWorld {
  plans : list obj;              (* the plan collection, in insertion order *)
  users : list obj;              (* the user collection *)
  userStoreFault : option JsError; (* the failure of the user store, if it is down *)
  storeLog : list StoreOp;       (* the store operations issued so far *)
  clockReads : nat;              (* evaluations of [new Date()] so far *)
  idsIssued : nat;               (* identifiers generated so far *)
}.

(** Computations of a handler: they read and change the world and either
    produce a value or end the handler with an outcome. *)
Definition M (A : Type) : Type := World -> (Outcome + A) * World.

Definition ret {A} (a : A) : M A := fun w => (inr a, w).

Definition bind {A B} (m : M A) (k : A -> M B) : M B :=
  fun w =>
    match m w with
    | (inl o, w') => (inl o, w')
    | (inr a, w') => k a w'
    end.

Definition respond {A} (status : Z) (b : Body) : M A :=
  fun w => (inl (Responded status b), w).

Definition next {A} : M A := fun w => (inl Forwarded, w).

Definition throw {A} (e : JsError) : M A := fun w => (inl (Threw e), w).

(** A handler always ends with an outcome. *)
Definition Handler : Type := M Empty_set.

Definition exec (h : Handler) (w : World) : Outcome * World :=
  match h w with
  | (inl o, w') => (o, w')
  | (inr e, _) => match e with end
  end.

Definition logged (op : StoreOp) (w : World) : World :=
  mkWorld (plans w) (users w) (userStoreFault w) (storeLog w ++ [op])
    (clockReads w) (idsIssued w).

(** [new Date()] *)
Definition newDate : M jsval :=
  fun w =>
    (inr (JDate (Instant (clock (clockReads w)))),
     mkWorld (plans w) (users w) (userStoreFault w) (storeLog w)
       (S (clockReads w)) (idsIssued w)).

(** [new Types.ObjectId(s)] *)
Definition ObjectId_ (s : string) : M ObjectId :=
  match newObjectId s with
  | Some o => ret o
  | None => throw objectIdError
  end.

(** [assert(value, message)] *)
Definition assert (v : jsval) (message : string) : M unit :=
  if truthy v then ret tt else throw (AssertionError message).

(** ** The record store *)

(** Modelled from the spec: [misc.escapeRegex] is not part of the sources.
    The pattern [new RegExp(misc.escapeRegex(text), "i")] is the
    literal-escaped, case-insensitive pattern of the specification: it
    matches the strings in which [text] occurs, up to case. *)
Definition RegExp_escaped (text : string) : Condition := Matches text.

Definition satisfies (doc : obj) (path : string) (c : Condition) : bool :=
  match c with
  | Equals v => bool_decide (prop doc path = v)
  | Range (JDate (Instant lo)) (JDate (Instant hi)) =>
      match prop doc path with
      | JDate (Instant t) => (lo <=? t) && (t <=? hi)
      | _ => false
      end
  | Range _ _ => false
  | Matches text =>
      match prop doc path with
      | JStr s => Js.contains_ci text s
      | _ => false
      end
  end.

Definition matches (f : Filter) (doc : obj) : bool :=
  forallb (fun cl =>
    match cl with
    | Field path c => satisfies doc path c
    | Or alts => existsb (fun pc => satisfies doc pc.1 pc.2) alts
    end) f.

(** Casting a filter to the schema of the model: a bound that is not a
    valid date cannot be cast to the type of a date path. *)
Definition castCondition (path : string) (c : Condition) : option JsError :=
  match c with
  | Range (JDate (Instant _)) (JDate (Instant _)) => None
  | Range _ _ => Some (CastError path)
  | _ => None
  end.

Fixpoint castFilter (f : Filter) : option JsError :=
  match f with
  | [] => None
  | Field path c :: rest =>
      match castCondition path c with
      | Some e => Some e
      | None => castFilter rest
      end
  | Or _ :: rest => castFilter rest
  end.

(** [Plan.findOne(filter).exec()] *)
Definition Plan_findOne (f : Filter) : M (option obj) :=
  fun w => (inr (find (matches f) (plans w)), logged (PlanFindOne f) w).

(** [Plan.findById(id).and([{ ownerId }]).exec()] *)
Definition Plan_findById_and (id ownerId : ObjectId) : M (option obj) :=
  fun w =>
    (inr (find (matches [Field "_id" (Equals (JId id));
                         Field "ownerId" (Equals (JId ownerId))]) (plans w)),
     logged (PlanFindById id ownerId) w).

(** Modelled from the spec: the model [../model/plan] is not part of the
    sources.  [new Plan(value)] is a document with the fields of [value]
    and a generated identifier. *)
Definition Plan_new (value : obj) : M obj :=
  fun w =>
    (inr (<["_id" := JId (generateId (idsIssued w))]> value),
     mkWorld (plans w) (users w) (userStoreFault w) (storeLog w)
       (clockReads w) (S (idsIssued w))).

(** Modelled from the spec: [plan.save()] stamps [createdAt] and
    [updatedAt] with the time of the save and inserts the document. *)
Definition Plan_save (plan : obj) : M obj :=
  fun w =>
    let stamp := JDate (Instant (clock (clockReads w))) in
    let saved := <["updatedAt" := stamp]> (<["createdAt" := stamp]> plan) in
    (inr saved,
     mkWorld (plans w ++ [saved]) (users w) (userStoreFault w)
       (storeLog w ++ [PlanSave saved]) (S (clockReads w)) (idsIssued w)).

Definition numberOf (v : jsval) : option number :=
  match v with
  | JNum n => Some n
  | _ => None
  end.

(** [Plan.paginate(filters, { limit, page, lean, leanWithId, pagination })]:
    the metadata and the documents of the page. *)
Definition Plan_paginate (f : Filter) (limit page : option number)
  : M (PageMeta number * list obj) :=
  fun w =>
    match castFilter f with
    | Some e => (inl (Threw e), logged (PlanPaginate f limit page) w)
    | None =>
        let found := filter (fun d => matches f d = true) (plans w) in
        let meta := paginate (length found) limit page in
        (inr (meta, firstn (take meta) (skipn (skip meta) found)),
         logged (PlanPaginate f limit page) w)
    end.

(** [User.findById(id, callback)]: the arguments [(error, user)] the
    callback receives. *)
Definition User_findById (id : string) : M (option JsError * option obj) :=
  fun w =>
    (inr
       match userStoreFault w with
       | Some e => (Some e, None)
       | None =>
           match newObjectId id with
           | None => (Some (CastError "_id"), None)
           | Some o =>
               (None, find (matches [Field "_id" (Equals (JId o))]) (users w))
           end
       end,
     logged (UserFindById id) w).

End Controller.

Notation "'let*' x ':=' m 'in' k" := (bind m (fun x => k))
  (at level 10, x name, m at level 100, k at level 200, only parsing).

(** ** The role gate: [src/app/middleware/requireRole.js] *)

Section RoleGate.
Context `{Platform}.

(** [user.role]: reading a property of [null] throws. *)
Definition role_of (user : option obj) : M jsval :=
  match user with
  | Some u => ret (prop u "role")
  | None => throw (TypeError "Cannot read property 'role' of null")
  end.

Definition requireRole (role : string) (request : Request) : Handler :=
  let* found := User_findById (user_identifier request) in
  match found with
  | (Some error, _) => throw error
  | (None, user) =>
      let* userRole := role_of user in
      if negb (bool_decide (userRole = JStr role)) then
        respond httpStatus.FORBIDDEN
          (JsonMessage (Text "The requested resource is forbidden."))
      else next
  end.

End RoleGate.

(** ** The plan controller *)

Section Plans.
Context `{Platform}.

(** [plan.id]: the identifier of a document as a string. *)
Definition id_of (plan : obj) : jsval :=
  match prop plan "_id" with
  | JId o => JStr (toHexString o)
  | _ => JUndefined
  end.

Definition toExternal (plan : obj) : obj :=
  list_to_map [
    ("id", id_of plan);
    ("ownerId", prop plan "ownerId");
    ("name", prop plan "name");
    ("code", prop plan "code");
    ("description", prop plan "description");
    ("billingCyclePeriod", prop plan "billingCyclePeriod");
    ("billingCyclePeriodUnit", prop plan "billingCyclePeriodUnit");
    ("pricePerBillingCycle", prop plan "pricePerBillingCycle");
    ("setupFee", prop plan "setupFee");
    ("totalBillingCycles", prop plan "totalBillingCycles");
    ("trialPeriod", prop plan "trialPeriod");
    ("trialPeriodUnit", prop plan "trialPeriodUnit");
    ("renews", prop plan "renews");
    ("createdAt", prop plan "createdAt");
    ("updatedAt", prop plan "updatedAt")
  ].

Definition num (z : Z) : jsval := JNum (number_of_Z z).

Definition planSchema : joi.ObjectSchema := [
  ("name", joi.string_ |> joi.trim |> joi.min 2 |> joi.max 100 |> joi.required);
  ("code", joi.string_ |> joi.trim |> joi.lowercase |> joi.alphanum
             |> joi.min 2 |> joi.max 20 |> joi.required);
  ("description", joi.string_ |> joi.trim |> joi.max 200 |> joi.allow JNull
             |> joi.empty |> joi.default_ JNull);
  ("billingCyclePeriod", joi.number_ |> joi.integer |> joi.required);
  ("billingCyclePeriodUnit",
     joi.string_ |> joi.valid [JStr "days"; JStr "months"] |> joi.required);
  ("pricePerBillingCycle", joi.number_ |> joi.required);
  ("setupFee", joi.number_ |> joi.default_ (num 0));
  ("totalBillingCycles", joi.number_ |> joi.integer |> joi.required);
  ("trialPeriod", joi.number_ |> joi.integer |> joi.default_ (num 0));
  ("trialPeriodUnit",
     joi.string_ |> joi.valid [JStr "days"; JStr "months"]
       |> joi.default_ (JStr "days"));
  ("renews", joi.boolean |> joi.default_ (JBool true))
].

Definition dateRanges : list jsval := [
  JStr "all_time";
  JStr "last_3_months";
  JStr "last_6_months";
  JStr "last_9_months";
  JStr "last_12_months";
  JStr "last_15_months";
  JStr "last_18_months";
  JStr "custom"
].

Definition filterSchema : joi.ObjectSchema := [
  ("page", joi.number_ |> joi.integer |> joi.default_ (num 0));
  ("limit", joi.number_ |> joi.integer |> joi.min 10
              |> joi.max PAGINATE_MAX_LIMIT |> joi.default_ (num 20));
  ("dateRange", joi.string_ |> joi.valid dateRanges
              |> joi.default_ (JStr "all_time"));
  ("startDate", joi.date |> joi.when "date_range" (JStr "custom"));
  ("endDate", joi.date |> joi.when "date_range" (JStr "custom"));
  ("search", joi.string_ |> joi.trim |> joi.allow JNull |> joi.empty
              |> joi.default_ JNull)
].

(** *** [POST /plans] *)

Definition createParameters (body : obj) : obj :=
  list_to_map [
    ("name", prop body "name");
    ("code", prop body "code");
    ("description", prop body "description");
    ("billingCyclePeriod", prop body "billingCyclePeriod");
    ("billingCyclePeriodUnit", prop body "billingCyclePeriodUnit");
    ("pricePerBillingCycle", prop body "pricePerBillingCycle");
    ("setupFee", prop body "setupFee");
    ("totalBillingCycles", prop body "totalBillingCycles");
    ("trialPeriod", prop body "trialPeriod");
    ("trialPeriodUnit", prop body "trialPeriodUnit");
    ("renews", prop body "renews")
  ].

Definition postPlans (request : Request) : Handler :=
  let body := body request in
  let parameters := createParameters body in
  match joi.validate planSchema parameters with
  | inl error =>
      respond httpStatus.BAD_REQUEST (JsonMessage (ErrorMessage error))
  | inr value =>
      let* ownerId := ObjectId_ (user_identifier request) in
      let* plan := Plan_findOne [Field "code" (Equals (prop value "code"));
                                 Field "ownerId" (Equals (JId ownerId))] in
      match plan with
      | Some _ =>
          respond httpStatus.BAD_REQUEST
            (JsonMessage (Text "A plan with the specified code already exists."))
      | None =>
          let value := <["ownerId" := JId ownerId]> value in
          let* newPlan := Plan_new value in
          let* newPlan := Plan_save newPlan in
          respond httpStatus.CREATED (JsonObject (toExternal newPlan))
      end
  end.

(** *** [GET /plans] *)

Definition listParameters (query : obj) : obj :=
  list_to_map [
    ("page", prop query "page");
    ("limit", prop query "limit");
    ("dateRange", prop query "date_range");
    ("startDate", prop query "start_date");
    ("endDate", prop query "end_date");
    ("search", prop query "search")
  ].

(** The table [months] of the handler. *)
Definition months : list (string * Z) := [
  ("last_3_months", 3);
  ("last_6_months", 6);
  ("last_9_months", 9);
  ("last_12_months", 12);
  ("last_15_months", 15);
  ("last_18_months", 18)
].

(** The properties an object literal inherits from [Object.prototype]. *)
Definition inherited : list string := [
  "constructor"; "__proto__"; "hasOwnProperty"; "isPrototypeOf";
  "propertyIsEnumerable"; "toLocaleString"; "toString"; "valueOf";
  "__defineGetter__"; "__defineSetter__"; "__lookupGetter__";
  "__lookupSetter__"
].

Fixpoint assoc (k : string) (table : list (string * Z)) : option Z :=
  match table with
  | [] => None
  | (k', v) :: rest => if bool_decide (k = k') then Some v else assoc k rest
  end.

(** [months[dateRange]] *)
Definition months_at (dateRange : jsval) : jsval :=
  match dateRange with
  | JStr tag =>
      match assoc tag months with
      | Some n => num n
      | None => if bool_decide (tag ∈ inherited) then JObject else JUndefined
      end
  | _ => JUndefined
  end.

(** [subMonths(date, amount)]: an amount that is not a number makes the
    result the Invalid Date. *)
Definition subMonths_ (date amount : jsval) : jsval :=
  match date, amount with
  | JDate (Instant t), JNum n =>
      match number_to_integer n with
      | Some k => JDate (Instant (subMonths t k))
      | None => JDate InvalidDate
      end
  | _, _ => JDate InvalidDate
  end.

(** [startOfDay(date)] and [endOfDay(date)]: [undefined] and the Invalid
    Date give the Invalid Date. *)
Definition startOfDay_ (date : jsval) : jsval :=
  match date with
  | JDate (Instant t) => JDate (Instant (startOfDay t))
  | _ => JDate InvalidDate
  end.

Definition endOfDay_ (date : jsval) : jsval :=
  match date with
  | JDate (Instant t) => JDate (Instant (endOfDay t))
  | _ => JDate InvalidDate
  end.

(** Lines 162-181: the start and end dates of the requested range. *)
Definition resolveDates (value : obj) : M (jsval * jsval) :=
  let startDate := prop value "startDate" in
  let endDate := prop value "endDate" in
  let dateRange := prop value "dateRange" in
  if negb (bool_decide (dateRange = JStr "custom")) &&
     negb (bool_decide (dateRange = JStr "all_time")) then
    let amount := months_at dateRange in
    let* _ := assert amount
      "The specified date range is invalid. How did Joi let it through?" in
    let* now := newDate in
    let startDate := subMonths_ now amount in
    let* endDate := newDate in
    ret (startDate, endDate)
  else ret (startDate, endDate).

(** Lines 183-197: the filter of the query. *)
Definition buildFilters (ownerId : ObjectId) (value : obj) (startDate endDate : jsval)
  : Filter :=
  let filters := [Field "ownerId" (Equals (JId ownerId))] in
  let filters :=
    if negb (bool_decide (prop value "dateRange" = JStr "all_time")) then
      (filters ++
         [Field "createdAt" (Range (startOfDay_ startDate) (endOfDay_ endDate))])%list
    else filters in
  if truthy (prop value "search") then
    match prop value "search" with
    | JStr search =>
        (filters ++
           [Or [("code", RegExp_escaped search); ("name", RegExp_escaped search)]])%list
    | _ => filters
    end
  else filters.

(** [p ? p - 1 : null] *)
Definition zeroBased (p : option number) : jsval :=
  match p with
  | Some n =>
      if number_truthy n then JNum (number_add n (number_of_Z (-1))) else JNull
  | None => JNull
  end.

(** The handler after validation, lines 162-218. *)
Definition listValidated (request : Request) (value : obj) : Handler :=
  let* dates := resolveDates value in
  let* ownerId := ObjectId_ (user_identifier request) in
  let filters := buildFilters ownerId value dates.1 dates.2 in
  let* plans := Plan_paginate filters
      (numberOf (prop value "limit"))
      (option_map (fun n => number_add n (number_of_Z 1)) (numberOf (prop value "page"))) in
  let result : obj := list_to_map [
    ("totalRecords", JNum (totalDocs plans.1));
    ("page", prop value "page");
    ("limit", JNum (limit plans.1));
    ("totalPages", JNum (totalPages plans.1));
    ("previousPage", zeroBased (prevPage plans.1));
    ("nextPage", zeroBased (nextPage plans.1));
    ("hasPreviousPage", JBool (hasPrevPage plans.1));
    ("hasNextPage", JBool (hasNextPage plans.1))
  ] in
  respond httpStatus.OK (JsonPage result (map toExternal plans.2)).

Definition getPlans (request : Request) : Handler :=
  let query := query request in
  let parameters := listParameters query in
  match joi.validate filterSchema parameters with
  | inl error =>
      respond httpStatus.BAD_REQUEST (JsonMessage (ErrorMessage error))
  | inr value => listValidated request value
  end.

(** *** [GET /plans/:identifier] *)

(** [/^[a-z0-9]{24}$/.test(s)] *)
Definition identifierPattern (s : string) : bool :=
  (String.length s =? 24)%nat && Js.all (fun c => Js.isLower c || Js.isDigit c) s.

Definition getPlan (request : Request) : Handler :=
  if negb (identifierPattern (params_identifier request)) then
    respond httpStatus.BAD_REQUEST
      (JsonMessage (Text "The specified plan identifier is invalid."))
  else
    let* ownerId := ObjectId_ (user_identifier request) in
    let* id := ObjectId_ (params_identifier request) in
    let* plan := Plan_findById_and id ownerId in
    match plan with
    | Some plan => respond httpStatus.OK (JsonObject (toExternal plan))
    | None =>
        respond httpStatus.NOT_FOUND
          (JsonMessage (Text "Cannot find a plan with the specified identifier."))
    end.

(** *** The routes

    The handlers [attachRoutes] registers; the [PUT] route of the source is
    commented out and registers nothing. *)

Inductive Method := GET | POST.

Definition attachRoutes : list (Method * string * (Request -> Handler)) := [
  (POST, "/plans", postPlans);
  (GET, "/plans", getPlans);
  (GET, "/plans/:identifier", getPlan)
].

End Plans.

(** ** A reference platform

    An executable instance used to run the handlers on concrete requests:
    numbers are the integral ones, time is UTC, numeric text is decimal
    digits with an optional sign, a date is given as its milliseconds. *)

Module Reference.

Definition msPerDay : Z := 86400000.

(** Days since the epoch of a civil date and back (proleptic Gregorian
    calendar, months 1 to 12). *)
Definition daysFromCivil (y m d : Z) : Z :=
  let y := if m <=? 2 then y - 1 else y in
  let era := y / 400 in
  let yoe := y - era * 400 in
  let mp := if 2 <? m then m - 3 else m + 9 in
  let doy := (153 * mp + 2) / 5 + d - 1 in
  let doe := yoe * 365 + yoe / 4 - yoe / 100 + doy in
  era * 146097 + doe - 719468.

Definition civilFromDays (z : Z) : Z * Z * Z :=
  let z := z + 719468 in
  let era := z / 146097 in
  let doe := z - era * 146097 in
  let yoe := (doe - doe / 1460 + doe / 36524 - doe / 146096) / 365 in
  let doy := doe - (365 * yoe + yoe / 4 - yoe / 100) in
  let mp := (5 * doy + 2) / 153 in
  let d := doy - (153 * mp + 2) / 5 + 1 in
  let m := if mp <? 10 then mp + 3 else mp - 9 in
  ((if m <=? 2 then yoe + era * 400 + 1 else yoe + era * 400), m, d).

Definition daysInMonth (y m : Z) : Z :=
  let next := if m =? 12 then daysFromCivil (y + 1) 1 1 else daysFromCivil y (m + 1) 1 in
  next - daysFromCivil y m 1.

(** [addMonths(date, amount)]: the same day of the target month, or its
    last day when the month is shorter; the time of day is kept. *)
Definition addMonths (t amount : Z) : Z :=
  let day := t / msPerDay in
  let timeOfDay := t mod msPerDay in
  let '(y, m, d) := civilFromDays day in
  let index := y * 12 + (m - 1) + amount in
  let y' := index / 12 in
  let m' := index mod 12 + 1 in
  let d' := Z.min d (daysInMonth y' m') in
  daysFromCivil y' m' d' * msPerDay + timeOfDay.

Definition isDigits (s : string) : bool :=
  Js.all Js.isDigit s && negb (bool_decide (s = "")).

Fixpoint digitsValue (acc : Z) (s : string) : Z :=
  match s with
  | EmptyString => acc
  | String c r => digitsValue (10 * acc + (Js.code c - 48)) r
  end.

Definition parseInteger (s : string) : option Z :=
  match s with
  | String "-" r => if isDigits r then Some (- digitsValue 0 r) else None
  | String "+" r => if isDigits r then Some (digitsValue 0 r) else None
  | _ => if isDigits s then Some (digitsValue 0 s) else None
  end.

Definition MAX_SAFE_INTEGER : Z := 9007199254740991.

Definition checkSafe (z : Z) : option string :=
  if (- MAX_SAFE_INTEGER <=? z) && (z <=? MAX_SAFE_INTEGER) then None
  else Some "number.unsafe".

Fixpoint hexDigits (width : nat) (n : N) : string :=
  match width with
  | O => EmptyString
  | S w =>
      String.append (hexDigits w (n / 16))
        (String (hexDigit (N.to_nat (n mod 16))) EmptyString)
  end.

(** Pagination of the plug-in: pages are numbered from one, ten documents
    a page unless told otherwise. *)
Definition paginateZ (count : nat) (limit page : option Z) : PageMeta Z :=
  let limit := match limit with Some l => l | None => 10 end in
  let page := match page with Some p => if p <? 1 then 1 else p | None => 1 end in
  let total := Z.of_nat count in
  let pages := if 0 <? limit then Z.max 1 ((total + limit - 1) / limit) else 1 in
  mkPageMeta Z total limit pages
    (if 1 <? page then Some (page - 1) else None)
    (if page <? pages then Some (page + 1) else None)
    (1 <? page) (page <? pages)
    (Z.to_nat ((page - 1) * limit)) (Z.to_nat limit).

Definition platform : Platform := {|
  number := Z;
  number_eq_dec := Z.eq_dec;
  number_of_Z := fun z => z;
  number_add := Z.add;
  number_leb := Z.leb;
  number_is_integer := fun _ => true;
  number_truthy := fun z => negb (z =? 0);
  number_truthy_of_Z := fun z => eq_refl;
  number_to_integer := Some;
  number_to_integer_of_Z := fun z _ => eq_refl;
  number_coerce := fun s =>
    match parseInteger s with
    | Some z =>
        match checkSafe z with
        | Some e => Some (inl e)
        | None => Some (inr z)
        end
    | None => None
    end;
  number_check := checkSafe;
  date_of_string := parseInteger;
  date_of_number := Some;
  subMonths := fun t amount => addMonths t (- amount);
  startOfDay := fun t => t / msPerDay * msPerDay;
  endOfDay := fun t => t / msPerDay * msPerDay + (msPerDay - 1);
  clock := fun k => 1600000000000 + Z.of_nat k;
  generateId := fun k => Oid (hexDigits 24 (N.of_nat k));
  PAGINATE_MAX_LIMIT := 100;
  paginate := paginateZ;
|}.

End Reference.


(** ** Vocabulary of the specification *)

(** Characters of a canonical identifier: lower-case hexadecimal digits. *)
Definition isLowerHex (c : ascii) : bool :=
  Js.isDigit c || ((97 <=? Js.code c) && (Js.code c <=? 102)).

(** The shape "24 lower-case hexadecimal characters" of a well-formed
    identifier. *)
Definition wellFormed (s : string) : bool :=
  (String.length s =? 24)%nat && Js.all isLowerHex s.

(** An authenticated caller, and an identifier of 24 characters none of
    which is a hexadecimal digit. *)
Definition anyCaller : string := "5f5e10000000000000000001".
Definition nonHexIdentifier : string := "zzzzzzzzzzzzzzzzzzzzzzzz".

Section Vocabulary.
Context `{Platform}.

(** The document [POST /plans] saves for a validated value, and the filter
    of its duplicate check. *)
Definition savedPlan (w : World) (owner : ObjectId) (value : obj) : obj :=
  let stamp := JDate (Instant (clock (clockReads w))) in
  <["updatedAt" := stamp]>
    (<["createdAt" := stamp]>
       (<["_id" := JId (generateId (idsIssued w))]>
          (<["ownerId" := JId owner]> value))).

Definition duplicateFilter (owner : ObjectId) (value : obj) : Filter :=
  [Field "code" (Equals (prop value "code")); Field "ownerId" (Equals (JId owner))].

(** The [$or] clause [GET /plans] adds for a search text. *)
Definition searchClauses (value : obj) : Filter :=
  if truthy (prop value "search") then
    match prop value "search" with
    | JStr search =>
        [Or [("code", RegExp_escaped search); ("name", RegExp_escaped search)]]
    | _ => []
    end
  else [].

(** The paths a filter constrains by a range of dates. *)
Fixpoint rangePaths (f : Filter) : list string :=
  match f with
  | [] => []
  | Field path (Range _ _) :: rest => path :: rangePaths rest
  | _ :: rest => rangePaths rest
  end.

(** The paths of the documents a filter looks at. *)
Fixpoint filterPaths (f : Filter) : list string :=
  match f with
  | [] => []
  | Field path _ :: rest => path :: filterPaths rest
  | Or alternatives :: rest => (map fst alternatives ++ filterPaths rest)%list
  end.

(** The world after [n] more evaluations of [new Date()]. *)
Definition ticked (n : nat) (w : World) : World :=
  mkWorld (plans w) (users w) (userStoreFault w) (storeLog w)
    (n + clockReads w) (idsIssued w).

(** The options [GET /plans] passes to [Plan.paginate]. *)
Definition limitOption (value : obj) : option number :=
  numberOf (prop value "limit").

Definition pageOption (value : obj) : option number :=
  option_map (fun n => number_add n (number_of_Z 1)) (numberOf (prop value "page")).

(** A list request for the [custom] range without dates, and what
    validation makes of its parameters. *)
Definition customQuery : obj := {[ "date_range" := JStr "custom" ]}.

Definition customValue : obj :=
  list_to_map [
    ("page", num 0);
    ("limit", num 20);
    ("dateRange", JStr "custom");
    ("search", JNull)
  ].

(** The constraint the create schema puts on [name], on a raw value. *)
Definition nameConstraint (raw : jsval) : option (joi.Error + jsval) :=
  option_map (fun s => joi.validateKey "name" s ∅ raw) (joi.child "name" planSchema).

End Vocabulary.

(** ** Concrete requests

    Requests and worlds on the reference platform, used to run the
    handlers. *)

Module Example.
Section Data.
Local Existing Instance Reference.platform.

(** The "Starter" plan of the specification, with an [ownerId] of its own
    in the body. *)
Definition starter : obj :=
  list_to_map [
    ("name", JStr "Starter");
    ("code", JStr "STARTER");
    ("billingCyclePeriod", JNum 1);
    ("billingCyclePeriodUnit", JStr "months");
    ("pricePerBillingCycle", JNum 9);
    ("totalBillingCycles", JNum 12);
    ("ownerId", JStr "5f5e10000000000000000002")
  ].

(** What validation makes of it. *)
Definition starterValue : obj :=
  list_to_map [
    ("name", JStr "Starter");
    ("code", JStr "starter");
    ("description", JNull);
    ("billingCyclePeriod", JNum 1);
    ("billingCyclePeriodUnit", JStr "months");
    ("pricePerBillingCycle", JNum 9);
    ("setupFee", JNum 0);
    ("totalBillingCycles", JNum 12);
    ("trialPeriod", JNum 0);
    ("trialPeriodUnit", JStr "days");
    ("renews", JBool true)
  ].

Definition owner : ObjectId := Oid anyCaller.
Definition stranger : ObjectId := Oid "5f5e10000000000000000002".
Definition planId : string := "5f5e10000000000000000009".

Definition createRequest : Request := mkRequest starter ∅ "" anyCaller.

Definition emptyWorld : World := mkWorld [] [] None [] 0 0.

(** A world in which the caller already has a plan with the code
    [starter]. *)
Definition ownPlan : obj :=
  <["_id" := JId (Oid planId)]> (<["ownerId" := JId owner]> starterValue).
Definition ownWorld : World := mkWorld [ownPlan] [] None [] 0 0.

(** A world in which the plan [planId] belongs to somebody else. *)
Definition foreignPlan : obj :=
  <["_id" := JId (Oid planId)]> (<["ownerId" := JId stranger]> starterValue).
Definition foreignWorld : World := mkWorld [foreignPlan] [] None [] 0 0.

Definition lookupRequest : Request := mkRequest ∅ ∅ planId anyCaller.

Definition listRequest : Request :=
  mkRequest ∅ {[ "date_range" := JStr "last_3_months" ]} "" anyCaller.

Definition listValue : obj :=
  list_to_map [
    ("page", JNum 0);
    ("limit", JNum 20);
    ("dateRange", JStr "last_3_months");
    ("search", JNull)
  ].

(** A value with a tag the schema does not know. *)
Definition strayValue : obj := {[ "dateRange" := JStr "last_week" ]}.

(** A world in which the caller is a user with the role [member]. *)
Definition member : obj :=
  list_to_map [("_id", JId owner); ("role", JStr "member")].
Definition memberWorld : World := mkWorld [] [member] None [] 0 0.

End Data.
End Example.

(** ** The names of the relative ranges *)

(** An integer that is not negative, in decimal digits. *)
Fixpoint decimalDigits (fuel : nat) (n : Z) (acc : string) : string :=
  match fuel with
  | O => acc
  | S fuel' =>
      let acc' := String (ascii_of_nat (48 + Z.to_nat (n mod 10))) acc in
      if n <? 10 then acc' else decimalDigits fuel' (n / 10) acc'
  end.

Definition decimal (n : Z) : string := decimalDigits 20 n "".

(** The name the specification gives the relative range of [n] months:
    [last_<n>_months]. *)
Definition relativeTag (n : Z) : string := "last_" ++ decimal n ++ "_months".

(** ** Vocabulary of the further properties *)

(** The fields of the external representation of a plan. *)
Definition externalFields : list string := [
  "id"; "ownerId"; "name"; "code"; "description"; "billingCyclePeriod";
  "billingCyclePeriodUnit"; "pricePerBillingCycle"; "setupFee";
  "totalBillingCycles"; "trialPeriod"; "trialPeriodUnit"; "renews";
  "createdAt"; "updatedAt"
].

(** The fields [planSchema] declares [required()]. *)
Definition requiredFields : list string := [
  "name"; "code"; "billingCyclePeriod"; "billingCyclePeriodUnit";
  "pricePerBillingCycle"; "totalBillingCycles"
].

(** Lower-case letters and digits. *)
Definition isLowerAlnum (c : ascii) : bool := Js.isDigit c || Js.isLower c.

Section FurtherVocabulary.
Context `{Platform}.

(** What the conversion of [joi.string()] makes of a raw value: text is
    put in lower case and trimmed as the schema says, anything else is
    left. *)
Definition converted (s : joi.Schema) (raw : jsval) : jsval :=
  match raw with
  | JStr t =>
      let t1 := if joi.hasRule joi.Lowercase s then Js.toLowerCase t else t in
      JStr (if joi.hasRule joi.Trim s then Js.trim t1 else t1)
  | _ => raw
  end.

(** What the role gate answers, from what the user store holds. *)
Definition gateOutcome (role : string) (caller : string) (w : World) : Outcome :=
  match userStoreFault w with
  | Some e => Threw e
  | None =>
      match newObjectId caller with
      | None => Threw (CastError "_id")
      | Some o =>
          match find (matches [Field "_id" (Equals (JId o))]) (users w) with
          | None => Threw (TypeError "Cannot read property 'role' of null")
          | Some user =>
              if bool_decide (prop user "role" = JStr role) then Forwarded
              else Responded httpStatus.FORBIDDEN
                     (JsonMessage (Text "The requested resource is forbidden."))
          end
      end
  end.

(** The pair a plan must not share with another plan. *)
Definition planKey (plan : obj) : jsval * jsval :=
  (prop plan "ownerId", prop plan "code").

Definition uniqueCodes (ps : list obj) : Prop := List.NoDup (map planKey ps).

(** [POST /plans] in the two stretches its [await]s cut it into: the
    handler up to the answer of [Plan.findOne] (lines 103-135), which
    either ends the request or goes on with the validated value and the
    owner, and the handler from there on (lines 137-141).  Other requests
    may reach the store between the two. *)
Definition postPlansCheck (request : Request) : M (obj * ObjectId) :=
  let body := body request in
  let parameters := createParameters body in
  match joi.validate planSchema parameters with
  | inl error =>
      respond httpStatus.BAD_REQUEST (JsonMessage (ErrorMessage error))
  | inr value =>
      let* ownerId := ObjectId_ (user_identifier request) in
      let* plan := Plan_findOne [Field "code" (Equals (prop value "code"));
                                 Field "ownerId" (Equals (JId ownerId))] in
      match plan with
      | Some _ =>
          respond httpStatus.BAD_REQUEST
            (JsonMessage (Text "A plan with the specified code already exists."))
      | None => ret (value, ownerId)
      end
  end.

Definition postPlansSave (pending : obj * ObjectId) : Handler :=
  let value := <["ownerId" := JId pending.2]> pending.1 in
  let* newPlan := Plan_new value in
  let* newPlan := Plan_save newPlan in
  respond httpStatus.CREATED (JsonObject (toExternal newPlan)).

(** The documents of the page [Plan.paginate] returns. *)
Definition pageDocs (f : Filter) (limit page : option number) (w : World) : list obj :=
  let found := filter (fun d => matches f d = true) (plans w) in
  let meta := paginate (length found) limit page in
  firstn (take meta) (skipn (skip meta) found).

End FurtherVocabulary.

(** ** Further concrete requests *)

Module Scenario.
Section Data.
Local Existing Instance Reference.platform.

(** A user store that is down. *)
Definition faultyWorld : World :=
  mkWorld [] [] (Some (StoreFailure "connection lost")) [] 0 0.

(** The "Starter" plan without its name, and with a blank description. *)
Definition namelessRequest : Request :=
  mkRequest (delete "name" Example.starter) ∅ "" anyCaller.

Definition blankBody : obj := <["description" := JStr "   "]> Example.starter.

(** An identifier that is too short. *)
Definition shortRequest : Request := mkRequest ∅ ∅ "5f5e1000" anyCaller.

(** The list of the caller's plans, without parameters. *)
Definition plainRequest : Request := mkRequest ∅ ∅ "" anyCaller.

Definition plainValue : obj :=
  list_to_map [
    ("page", JNum 0);
    ("limit", JNum 20);
    ("dateRange", JStr "all_time");
    ("search", JNull)
  ].

(** A list request with a range the schema does not know. *)
Definition strayRequest : Request :=
  mkRequest ∅ {[ "date_range" := JStr "last_week" ]} "" anyCaller.

(** A list request for a custom range, the dates given in milliseconds. *)
Definition customRequest : Request :=
  mkRequest ∅
    (list_to_map [
       ("date_range", JStr "custom");
       ("start_date", JStr "1590000000000");
       ("end_date", JStr "1600000000000")
     ]) "" anyCaller.

Definition customDatesValue : obj :=
  list_to_map [
    ("page", JNum 0);
    ("limit", JNum 20);
    ("dateRange", JStr "custom");
    ("startDate", JDate (Instant 1590000000000));
    ("endDate", JDate (Instant 1600000000000));
    ("search", JNull)
  ].

(** A world with two plans of the caller, one created inside that range
    and one long before it. *)
Definition datedPlan : obj :=
  <["createdAt" := JDate (Instant 1595000000000)]> Example.ownPlan.

Definition oldPlan : obj :=
  <["createdAt" := JDate (Instant 1500000000000)]>
    (<["code" := JStr "legacy"]>
       (<["_id" := JId (Oid "5f5e10000000000000000008")]> Example.ownPlan)).

Definition datedWorld : World := mkWorld [oldPlan; datedPlan] [] None [] 0 0.

(** The filter and the page of that request on that world. *)
Definition customFilter : Filter :=
  Field "ownerId" (Equals (JId Example.owner)) ::
  Field "createdAt" (Range (JDate (Instant (startOfDay 1590000000000)))
                           (JDate (Instant (endOfDay 1600000000000)))) ::
  searchClauses customDatesValue.

Definition customDocs : list obj :=
  pageDocs customFilter (limitOption customDatesValue) (pageOption customDatesValue)
    datedWorld.

(** A list request for the third page of fifty records. *)
Definition pagedRequest : Request :=
  mkRequest ∅ (list_to_map [("page", JStr "2"); ("limit", JStr "50")]) "" anyCaller.

Definition pagedValue : obj :=
  list_to_map [
    ("page", JNum 2);
    ("limit", JNum 50);
    ("dateRange", JStr "all_time");
    ("search", JNull)
  ].

(** The same plan requested by the same caller a second time. *)
Definition secondRequest : Request :=
  mkRequest (<["name" := JStr "Starter again"]> Example.starter) ∅ "" anyCaller.

Definition secondValue : obj := <["name" := JStr "Starter again"]> Example.starterValue.

(** A list request with a search text. *)
Definition searchRequest : Request :=
  mkRequest ∅ {[ "search" := JStr " START " ]} "" anyCaller.

(** The body of a paged answer. *)
Definition page (o : Outcome) : obj * list obj :=
  match o with
  | Responded _ (JsonPage result records) => (result, records)
  | _ => (∅, [])
  end.

End Data.
End Scenario.

(** * Properties *)

Local Open Scope list_scope.

(** ** Helper facts on properties, lists and characters *)

Section Helpers.
Context `{Platform}.

Lemma prop_insert_eq (o : obj) (k : string) (v : jsval) : prop (<[k := v]> o) k = v.
Proof. unfold prop. by rewrite lookup_insert_eq. Qed.

Lemma prop_insert_ne (o : obj) (k k' : string) (v : jsval) :
  k <> k' -> prop (<[k := v]> o) k' = prop o k'.
Proof. intros Hne. unfold prop. by rewrite lookup_insert_ne. Qed.

Lemma prop_delete_eq (o : obj) (k : string) : prop (delete k o) k = JUndefined.
Proof. unfold prop. by rewrite lookup_delete_eq. Qed.

Lemma prop_delete_ne (o : obj) (k k' : string) :
  k <> k' -> prop (delete k o) k' = prop o k'.
Proof. intros Hne. unfold prop. by rewrite lookup_delete_ne. Qed.

Lemma prop_assign_eq (o : obj) (k : string) (v : jsval) : prop (joi.assign k v o) k = v.
Proof.
  unfold joi.assign. case_bool_decide as Hv.
  - subst v. apply prop_delete_eq.
  - apply prop_insert_eq.
Qed.

Lemma prop_assign_ne (o : obj) (k k' : string) (v : jsval) :
  k <> k' -> prop (joi.assign k v o) k' = prop o k'.
Proof.
  intros Hne. unfold joi.assign. case_bool_decide.
  - by apply prop_delete_ne.
  - by apply prop_insert_ne.
Qed.

Lemma find_none_of {A} (f : A -> bool) (l : list A) :
  (forall x, In x l -> f x = false) -> find f l = None.
Proof.
  induction l as [|a l IH]; intros Hall; simpl; [reflexivity|].
  rewrite (Hall a) by (left; reflexivity).
  apply IH. intros x Hx. apply Hall. right. exact Hx.
Qed.

Lemma find_some_of {A} (f : A -> bool) (l : list A) (x : A) :
  In x l -> f x = true -> exists y, find f l = Some y.
Proof.
  induction l as [|a l IH]; intros Hin Hfx; simpl; [destruct Hin|].
  destruct (f a) eqn:Hfa; [eauto|].
  destruct Hin as [->|Hin]; [congruence|]. eauto.
Qed.

(** The filter [{ a: x, b: y }]. *)
Lemma matches_two (a b : string) (x y : jsval) (doc : obj) :
  matches [Field a (Equals x); Field b (Equals y)] doc = true <->
  prop doc a = x /\ prop doc b = y.
Proof.
  unfold matches. simpl.
  rewrite !andb_true_iff, !bool_decide_eq_true. tauto.
Qed.

End Helpers.

Ltac char_cases :=
  unfold isLowerHex, isHex, Js.isDigit, Js.isLower, Js.isUpper, Js.isUpperLatin1,
    Js.isHexLetter in *;
  repeat match goal with
         | |- context [?a <=? ?b] => destruct (Z.leb_spec a b)
         | H : context [?a <=? ?b] |- _ => destruct (Z.leb_spec a b)
         end;
  simpl in *; try reflexivity; try discriminate; try lia.

Lemma lowerHex_pattern (c : ascii) :
  isLowerHex c = true -> Js.isLower c || Js.isDigit c = true.
Proof. intros Hc. char_cases. Qed.

Lemma lowerHex_hex (c : ascii) : isLowerHex c = true -> isHex c = true.
Proof. intros Hc. char_cases. Qed.

Lemma lowerHex_lowerChar (c : ascii) : isLowerHex c = true -> Js.lowerChar c = c.
Proof.
  intros Hc. unfold Js.lowerChar.
  assert (Js.isUpper c || Js.isUpperLatin1 c = false) as -> by char_cases. reflexivity.
Qed.

Lemma all_impl (p q : ascii -> bool) (s : string) :
  (forall c, p c = true -> q c = true) -> Js.all p s = true -> Js.all q s = true.
Proof.
  intros Hpq. induction s as [|c r IH]; simpl; [reflexivity|].
  rewrite !andb_true_iff. intros [Hc Hr]. split; [apply Hpq, Hc | apply IH, Hr].
Qed.

Lemma lowerHex_toLowerCase (s : string) :
  Js.all isLowerHex s = true -> Js.toLowerCase s = s.
Proof.
  induction s as [|c r IH]; simpl; [reflexivity|].
  rewrite andb_true_iff. intros [Hc Hr].
  rewrite (lowerHex_lowerChar c Hc), (IH Hr). reflexivity.
Qed.

Lemma wellFormed_pattern (s : string) :
  wellFormed s = true -> identifierPattern s = true.
Proof.
  unfold wellFormed, identifierPattern. rewrite !andb_true_iff.
  intros [Hl Ha]. split; [exact Hl|].
  apply all_impl with (p := isLowerHex); [apply lowerHex_pattern | exact Ha].
Qed.

Lemma wellFormed_objectId (s : string) :
  wellFormed s = true -> newObjectId s = Some (Oid s).
Proof.
  unfold wellFormed, newObjectId. rewrite andb_true_iff. intros [Hl Ha].
  rewrite Hl, (all_impl isLowerHex isHex s lowerHex_hex Ha). simpl.
  rewrite (lowerHex_toLowerCase s Ha). reflexivity.
Qed.


Section RoleGateProperties.
Context `{Platform}.

Lemma requireRole_null_user (role : string) (request : Request) (w : World) (o : ObjectId) :
  userStoreFault w = None ->
  newObjectId (user_identifier request) = Some o ->
  find (matches [Field "_id" (Equals (JId o))]) (users w) = None ->
  exec (requireRole role request) w =
    (Threw (TypeError "Cannot read property 'role' of null"),
     logged (UserFindById (user_identifier request)) w).
Proof.
  intros Hfault Hid Hnone.
  unfold exec, requireRole, bind, User_findById.
  rewrite Hfault, Hid, Hnone. reflexivity.
Qed.

(** C3: when the lookup succeeds with no user (here: an empty user
    collection), the gate neither answers FORBIDDEN nor forwards: reading
    [user.role] throws a TypeError. *)
Theorem requireRole_missing_user_throws
    (role : string) (b q : obj) (p : string) (ps : list obj)
    (log : list StoreOp) (k i : nat) :
  exec (requireRole role (mkRequest b q p anyCaller)) (mkWorld ps [] None log k i) =
    (Threw (TypeError "Cannot read property 'role' of null"),
     mkWorld ps [] None (log ++ [UserFindById anyCaller]) k i).
Proof.
  exact (requireRole_null_user role (mkRequest b q p anyCaller)
           (mkWorld ps [] None log k i) (Oid anyCaller) eq_refl eq_refl eq_refl).
Qed.

End RoleGateProperties.

Section IdentifierProperties.
Context `{Platform}.

Lemma getPlan_rejects_unmatched (request : Request) (w : World) :
  identifierPattern (params_identifier request) = false ->
  exec (getPlan request) w =
    (Responded httpStatus.BAD_REQUEST
       (JsonMessage (Text "The specified plan identifier is invalid.")), w).
Proof.
  intros Hp. unfold exec, getPlan. rewrite Hp. reflexivity.
Qed.

Lemma getPlan_bad_caller (request : Request) (w : World) :
  identifierPattern (params_identifier request) = true ->
  newObjectId (user_identifier request) = None ->
  exec (getPlan request) w = (Threw objectIdError, w).
Proof.
  intros Hp Hc. unfold exec, getPlan, bind, ObjectId_. rewrite Hp, Hc. reflexivity.
Qed.

Lemma getPlan_bad_identifier (request : Request) (w : World) :
  identifierPattern (params_identifier request) = true ->
  newObjectId (params_identifier request) = None ->
  exec (getPlan request) w = (Threw objectIdError, w).
Proof.
  intros Hp Hi. unfold exec, getPlan, bind, ObjectId_. rewrite Hp, Hi.
  destruct (newObjectId (user_identifier request)); reflexivity.
Qed.

Lemma getPlan_lookup (request : Request) (w : World) (owner id : ObjectId) :
  identifierPattern (params_identifier request) = true ->
  newObjectId (user_identifier request) = Some owner ->
  newObjectId (params_identifier request) = Some id ->
  exec (getPlan request) w =
    (match find (matches [Field "_id" (Equals (JId id));
                          Field "ownerId" (Equals (JId owner))]) (plans w) with
     | Some plan => Responded httpStatus.OK (JsonObject (toExternal plan))
     | None =>
         Responded httpStatus.NOT_FOUND
           (JsonMessage (Text "Cannot find a plan with the specified identifier."))
     end,
     logged (PlanFindById id owner) w).
Proof.
  intros Hp Hc Hi.
  unfold exec, getPlan, bind, ObjectId_, Plan_findById_and. rewrite Hp, Hc, Hi.
  simpl. destruct (find _ (plans w)); reflexivity.
Qed.

(** C5: an identifier of 24 characters that are not hexadecimal digits
    passes [identifierPattern]; the handler does not answer BAD_REQUEST but
    goes on to build an [ObjectId] from it, which throws. *)
Theorem getPlan_non_hex_identifier_not_rejected
    (b q : obj) (caller : string) (w : World) :
  identifierPattern nonHexIdentifier = true /\
  Js.all isHex nonHexIdentifier = false /\
  exec (getPlan (mkRequest b q nonHexIdentifier caller)) w =
    (Threw objectIdError, w).
Proof.
  split; [reflexivity|]. split; [reflexivity|].
  apply getPlan_bad_identifier; reflexivity.
Qed.

End IdentifierProperties.

Section LookupProperties.
Context `{Platform}.

(** C2: for a well-formed identifier, when no plan of the collection has
    both that identifier and the caller as owner, the answer is NOT_FOUND
    with the fixed message; a plan that exists but belongs to somebody else
    is answered exactly like an identifier no plan has. *)
Theorem getPlan_not_found_uniform (request : Request) (owner : ObjectId) :
  wellFormed (params_identifier request) = true ->
  newObjectId (user_identifier request) = Some owner ->
  let id := Oid (params_identifier request) in
  let notFound :=
    Responded httpStatus.NOT_FOUND
      (JsonMessage (Text "Cannot find a plan with the specified identifier.")) in
  (forall w : World,
     (forall plan, In plan (plans w) ->
        ~ (prop plan "_id" = JId id /\ prop plan "ownerId" = JId owner)) ->
     exec (getPlan request) w = (notFound, logged (PlanFindById id owner) w)) /\
  (forall (w1 w2 : World) (plan : obj) (other : ObjectId),
     In plan (plans w1) ->
     prop plan "_id" = JId id -> prop plan "ownerId" = JId other -> other <> owner ->
     (forall p, In p (plans w1) -> prop p "_id" = JId id -> p = plan) ->
     (forall p, In p (plans w2) -> prop p "_id" <> JId id) ->
     (exec (getPlan request) w1).1 = notFound /\
     (exec (getPlan request) w1).1 = (exec (getPlan request) w2).1).
Proof.
  intros Hwf Hcaller id notFound.
  assert (forall w : World,
     (forall plan, In plan (plans w) ->
        ~ (prop plan "_id" = JId id /\ prop plan "ownerId" = JId owner)) ->
     exec (getPlan request) w = (notFound, logged (PlanFindById id owner) w)) as Hmiss.
  { intros w Hnone.
    rewrite (getPlan_lookup request w owner id
               (wellFormed_pattern _ Hwf) Hcaller (wellFormed_objectId _ Hwf)).
    rewrite find_none_of; [reflexivity|].
    intros plan Hin. apply not_true_is_false. rewrite matches_two.
    exact (Hnone plan Hin). }
  split; [exact Hmiss|].
  intros w1 w2 plan other Hin Hid Hown Hother Huniq Habsent.
  rewrite (Hmiss w1), (Hmiss w2); [split; reflexivity | |].
  - intros p Hp [Hpid _]. exact (Habsent p Hp Hpid).
  - intros p Hp [Hpid Hpown]. rewrite (Huniq p Hp Hpid) in Hpown.
    rewrite Hown in Hpown. injection Hpown as ->. exact (Hother eq_refl).
Qed.

End LookupProperties.

Section CreateProperties.
Context `{Platform}.

Lemma postPlans_validated (request : Request) (w : World) (value : obj) (owner : ObjectId) :
  joi.validate planSchema (createParameters (body request)) = inr value ->
  newObjectId (user_identifier request) = Some owner ->
  exec (postPlans request) w =
    match find (matches (duplicateFilter owner value)) (plans w) with
    | Some _ =>
        (Responded httpStatus.BAD_REQUEST
           (JsonMessage (Text "A plan with the specified code already exists.")),
         logged (PlanFindOne (duplicateFilter owner value)) w)
    | None =>
        (Responded httpStatus.CREATED (JsonObject (toExternal (savedPlan w owner value))),
         mkWorld (plans w ++ [savedPlan w owner value]) (users w) (userStoreFault w)
           (storeLog w ++ [PlanFindOne (duplicateFilter owner value);
                           PlanSave (savedPlan w owner value)])
           (S (clockReads w)) (S (idsIssued w)))
    end.
Proof.
  intros Hv Ho.
  unfold exec, postPlans, bind, ObjectId_, Plan_findOne. rewrite Hv, Ho. simpl.
  fold (duplicateFilter owner value).
  destruct (find _ (plans w)); [reflexivity|].
  unfold savedPlan. simpl. rewrite <- app_assoc. reflexivity.
Qed.

Lemma createParameters_ignores_ownerId (b : obj) (v : jsval) :
  createParameters (<["ownerId" := v]> b) = createParameters b.
Proof.
  unfold createParameters. rewrite !prop_insert_ne by done. reflexivity.
Qed.

Lemma toExternal_ownerId (plan : obj) :
  prop (toExternal plan) "ownerId" = prop plan "ownerId".
Proof.
  unfold toExternal, prop at 1. cbn [list_to_map foldr uncurry fst snd].
  rewrite lookup_insert_ne by done. rewrite lookup_insert_eq. reflexivity.
Qed.

(** C1: the plan a valid create request stores, and the plan the 201
    response carries, have the caller as [ownerId]; an [ownerId] in the
    body of the request changes nothing, it is never read. *)
Theorem postPlans_owner_is_caller
    (request : Request) (w : World) (value : obj) (owner : ObjectId) :
  joi.validate planSchema (createParameters (body request)) = inr value ->
  newObjectId (user_identifier request) = Some owner ->
  find (matches (duplicateFilter owner value)) (plans w) = None ->
  exists (saved : obj) (w' : World),
    exec (postPlans request) w =
      (Responded httpStatus.CREATED (JsonObject (toExternal saved)), w') /\
    plans w' = plans w ++ [saved] /\
    prop saved "ownerId" = JId owner /\
    prop (toExternal saved) "ownerId" = JId owner /\
    forall v : jsval,
      exec (postPlans (mkRequest (<["ownerId" := v]> (body request)) (query request)
                         (params_identifier request) (user_identifier request))) w =
      exec (postPlans request) w.
Proof.
  intros Hv Ho Hfresh.
  assert (prop (savedPlan w owner value) "ownerId" = JId owner) as Hown.
  { unfold savedPlan. rewrite !prop_insert_ne by done. apply prop_insert_eq. }
  exists (savedPlan w owner value). eexists. split.
  { rewrite (postPlans_validated request w value owner Hv Ho), Hfresh. reflexivity. }
  split; [reflexivity|]. split; [exact Hown|].
  split; [rewrite toExternal_ownerId; exact Hown|].
  intros v. unfold postPlans. simpl body. simpl user_identifier.
  rewrite createParameters_ignores_ownerId. reflexivity.
Qed.

(** C6: a valid create request whose code the caller already uses is
    answered BAD_REQUEST with the duplicate-code message, and the plan
    collection is left as it was: the only store operation is the lookup. *)
Theorem postPlans_duplicate_code_rejected
    (request : Request) (w : World) (value existing : obj) (owner : ObjectId) :
  joi.validate planSchema (createParameters (body request)) = inr value ->
  newObjectId (user_identifier request) = Some owner ->
  In existing (plans w) ->
  prop existing "code" = prop value "code" ->
  prop existing "ownerId" = JId owner ->
  exists w' : World,
    exec (postPlans request) w =
      (Responded httpStatus.BAD_REQUEST
         (JsonMessage (Text "A plan with the specified code already exists.")), w') /\
    plans w' = plans w /\
    storeLog w' = storeLog w ++ [PlanFindOne (duplicateFilter owner value)].
Proof.
  intros Hv Ho Hin Hcode Hown.
  destruct (find_some_of (matches (duplicateFilter owner value)) (plans w) existing Hin)
    as [found Hfound].
  { apply matches_two. split; assumption. }
  eexists. split.
  { rewrite (postPlans_validated request w value owner Hv Ho), Hfound. reflexivity. }
  split; reflexivity.
Qed.

End CreateProperties.

Section ValidationProperties.
Context `{Platform}.

(** Keys the schema does not declare are left as they are. *)
Lemma validateKeys_other (keys : joi.ObjectSchema) (value0 value : obj) (key : string) :
  joi.validateKeys keys value0 = inr value ->
  ~ In key (map fst keys) ->
  prop value key = prop value0 key.
Proof.
  revert value0. induction keys as [|[k s] rest IH]; intros value0 Hv Hnot; simpl in *.
  - congruence.
  - destruct (joi.validateKey k s value0 (prop value0 k)) as [e|v]; [discriminate|].
    rewrite (IH _ Hv) by tauto.
    apply prop_assign_ne. intros ->. tauto.
Qed.

(** The value of a declared key is what the validation of that key
    produced, from the raw value of the key. *)
Lemma validateKeys_child (keys : joi.ObjectSchema) (value0 value : obj)
    (key : string) (s : joi.Schema) :
  List.NoDup (map fst keys) ->
  joi.validateKeys keys value0 = inr value ->
  In (key, s) keys ->
  exists parent, joi.validateKey key s parent (prop value0 key) = inr (prop value key).
Proof.
  revert value0. induction keys as [|[k s'] rest IH]; intros value0 Hnd Hv Hin; simpl in *.
  - destruct Hin.
  - inversion Hnd as [|? ? Hk Hrest]; subst.
    destruct (joi.validateKey k s' value0 (prop value0 k)) as [e|v] eqn:Hkey; [discriminate|].
    destruct Hin as [Heq|Hin].
    + injection Heq as -> ->. exists value0.
      rewrite (validateKeys_other rest _ value key Hv Hk), prop_assign_eq. exact Hkey.
    + destruct (IH _ Hrest Hv Hin) as [parent Hp]. exists parent.
      rewrite prop_assign_ne in Hp; [exact Hp|].
      intros ->. apply Hk. apply (in_map fst _ _ Hin).
Qed.

Lemma validate_child (keys : joi.ObjectSchema) (value0 value : obj)
    (key : string) (s : joi.Schema) :
  List.NoDup (map fst keys) ->
  joi.validate keys value0 = inr value ->
  In (key, s) keys ->
  exists parent, joi.validateKey key s parent (prop value0 key) = inr (prop value key).
Proof.
  unfold joi.validate. intros Hnd Hv Hin.
  destruct (joi.validateKeys keys value0) as [e|value'] eqn:Hkeys; [discriminate|].
  destruct (joi.unknownKey keys value0); [discriminate|].
  injection Hv as <-. eapply validateKeys_child; eauto.
Qed.

(** A schema built with [valid(...)] lets through its allowed values and
    its default, nothing else. *)
Lemma validateKey_only (key : string) (s : joi.Schema) (parent : obj) (raw v : jsval) :
  joi.only s = true ->
  joi.validateKey key s parent raw = inr v ->
  In v (joi.allowed s) \/ v = joi.finalizeAbsent s.
Proof.
  intros Honly. unfold joi.validateKey.
  destruct (joi.coerce s raw) as [e|v0]; [discriminate|].
  cbv zeta.
  generalize (if joi.emptyString s && bool_decide (v0 = JStr "") then JUndefined else v0).
  intros v1. case_bool_decide as Hundef.
  - destruct (joi.presence s parent); [discriminate|].
    intros Heq. injection Heq as Heq. subst v. right. reflexivity.
  - case_bool_decide as Hallowed.
    + intros Heq. injection Heq as Heq. subst v. left.
      apply list_elem_of_In. exact Hallowed.
    + rewrite Honly. discriminate.
Qed.

Lemma filterSchema_keys : List.NoDup (map fst filterSchema).
Proof.
  simpl. repeat constructor; simpl; intuition discriminate.
Qed.

(** The tag of a validated list request is one of the eight the schema
    names. *)
Lemma validated_dateRange (parameters value : obj) :
  joi.validate filterSchema parameters = inr value ->
  In (prop value "dateRange") dateRanges.
Proof.
  intros Hv.
  destruct (validate_child filterSchema parameters value "dateRange"
              (joi.string_ |> joi.valid dateRanges |> joi.default_ (JStr "all_time"))
              filterSchema_keys Hv) as [parent Hkey].
  { simpl. tauto. }
  apply validateKey_only in Hkey; [|reflexivity].
  destruct Hkey as [Hin | Hdef].
  - exact Hin.
  - rewrite Hdef. simpl. tauto.
Qed.

End ValidationProperties.

Section ListProperties.
Context `{Platform}.

Lemma months_tag_relative (tag : string) (n : Z) :
  assoc tag months = Some n ->
  JStr tag <> JStr "custom" /\ JStr tag <> JStr "all_time" /\ 3 <= n <= 18.
Proof.
  unfold months. simpl.
  repeat (case_bool_decide; [intros [= <-]; subst tag; repeat split; (discriminate || lia)|]).
  discriminate.
Qed.

(** The table [months] has an entry for every tag of the schema other
    than [custom] and [all_time]. *)
Lemma months_total (v : jsval) :
  In v dateRanges -> v <> JStr "custom" -> v <> JStr "all_time" ->
  exists tag n, v = JStr tag /\ assoc tag months = Some n.
Proof.
  simpl. intros Hin Hc Ha.
  repeat (destruct Hin as [<-|Hin]; [try congruence; eauto|]).
  destruct Hin.
Qed.

Lemma resolveDates_relative (value : obj) (w : World) (tag : string) (n : Z) :
  prop value "dateRange" = JStr tag ->
  assoc tag months = Some n ->
  resolveDates value w =
    (inr (JDate (Instant (subMonths (clock (clockReads w)) n)),
          JDate (Instant (clock (S (clockReads w))))),
     ticked 2 w).
Proof.
  intros Htag Hn. destruct (months_tag_relative tag n Hn) as (Hc & Ha & Hz).
  assert (n <> 0) as Hnz by lia.
  unfold resolveDates. rewrite Htag.
  rewrite !bool_decide_eq_false_2 by assumption. simpl negb. simpl andb. cbv iota.
  unfold months_at. rewrite Hn.
  unfold bind, assert, num, truthy. rewrite number_truthy_of_Z.
  destruct (Z.eqb_spec n 0) as [|_]; [contradiction|]. simpl.
  rewrite number_to_integer_of_Z by lia. reflexivity.
Qed.

Lemma resolveDates_fixed (value : obj) (w : World) :
  prop value "dateRange" = JStr "custom" \/ prop value "dateRange" = JStr "all_time" ->
  resolveDates value w = (inr (prop value "startDate", prop value "endDate"), w).
Proof.
  intros Hd. unfold resolveDates.
  destruct Hd as [-> | ->]; reflexivity.
Qed.

Lemma resolveDates_unknown (value : obj) (w : World) :
  months_at (prop value "dateRange") = JUndefined ->
  prop value "dateRange" <> JStr "custom" ->
  prop value "dateRange" <> JStr "all_time" ->
  resolveDates value w =
    (inl (Threw (AssertionError
       "The specified date range is invalid. How did Joi let it through?")), w).
Proof.
  intros Hm Hc Ha. unfold resolveDates.
  rewrite !bool_decide_eq_false_2 by assumption. simpl negb. simpl andb. cbv iota.
  rewrite Hm. reflexivity.
Qed.

Lemma resolveDates_inherited (value : obj) (w : World) :
  months_at (prop value "dateRange") = JObject ->
  prop value "dateRange" <> JStr "custom" ->
  prop value "dateRange" <> JStr "all_time" ->
  resolveDates value w =
    (inr (JDate InvalidDate, JDate (Instant (clock (S (clockReads w))))), ticked 2 w).
Proof.
  intros Hm Hc Ha. unfold resolveDates.
  rewrite !bool_decide_eq_false_2 by assumption. simpl negb. simpl andb. cbv iota.
  rewrite Hm. reflexivity.
Qed.

Lemma buildFilters_shape (owner : ObjectId) (value : obj) (startDate endDate : jsval) :
  buildFilters owner value startDate endDate =
    Field "ownerId" (Equals (JId owner)) ::
    (if bool_decide (prop value "dateRange" = JStr "all_time") then []
     else [Field "createdAt" (Range (startOfDay_ startDate) (endOfDay_ endDate))]) ++
    searchClauses value.
Proof.
  unfold buildFilters, searchClauses.
  case_bool_decide; simpl negb; cbv iota;
    destruct (truthy (prop value "search")); try reflexivity;
    destruct (prop value "search"); reflexivity.
Qed.

Lemma searchClauses_cast (value : obj) : castFilter (searchClauses value) = None.
Proof.
  unfold searchClauses. destruct (truthy _); [|reflexivity].
  destruct (prop value "search"); reflexivity.
Qed.

Lemma searchClauses_rangePaths (value : obj) : rangePaths (searchClauses value) = [].
Proof.
  unfold searchClauses. destruct (truthy _); [|reflexivity].
  destruct (prop value "search"); reflexivity.
Qed.

Lemma searchClauses_paths (value : obj) (path : string) :
  In path (filterPaths (searchClauses value)) -> path = "code" \/ path = "name".
Proof.
  unfold searchClauses. destruct (truthy _); [|intros []].
  destruct (prop value "search"); simpl; intuition.
Qed.

(** What the handler does once the dates are resolved. *)
Lemma listValidated_query (request : Request) (value : obj) (w w1 : World)
    (dates : jsval * jsval) (owner : ObjectId) :
  resolveDates value w = (inr dates, w1) ->
  newObjectId (user_identifier request) = Some owner ->
  let f := buildFilters owner value dates.1 dates.2 in
  let op := PlanPaginate f (limitOption value) (pageOption value) in
  match castFilter f with
  | Some e => exec (listValidated request value) w = (Threw e, logged op w1)
  | None =>
      exists (result : obj) (records : list obj),
        exec (listValidated request value) w =
          (Responded httpStatus.OK (JsonPage result records), logged op w1)
  end.
Proof.
  intros Hd Ho f op.
  unfold exec, listValidated, bind, ObjectId_, Plan_paginate. rewrite Hd, Ho. simpl.
  fold f. fold (limitOption value). fold (pageOption value). fold op.
  destruct (castFilter f); [reflexivity|].
  eexists _, _. reflexivity.
Qed.

Lemma listValidated_bad_caller (request : Request) (value : obj) (w w1 : World)
    (dates : jsval * jsval) :
  resolveDates value w = (inr dates, w1) ->
  newObjectId (user_identifier request) = None ->
  exec (listValidated request value) w = (Threw objectIdError, w1).
Proof.
  intros Hd Ho.
  unfold exec, listValidated, bind, ObjectId_. rewrite Hd, Ho. reflexivity.
Qed.

Lemma listValidated_stopped (request : Request) (value : obj) (w w1 : World) (o : Outcome) :
  resolveDates value w = (inl o, w1) ->
  exec (listValidated request value) w = (o, w1).
Proof.
  intros Hd. unfold exec, listValidated, bind. rewrite Hd. reflexivity.
Qed.

Lemma getPlans_validated (request : Request) (value : obj) (w : World) :
  joi.validate filterSchema (listParameters (query request)) = inr value ->
  exec (getPlans request) w = exec (listValidated request value) w.
Proof.
  intros Hv. unfold exec at 1, getPlans. rewrite Hv. reflexivity.
Qed.

End ListProperties.

Section DateRangeProperties.
Context `{Platform}.

(** The store reads a range as the closed interval of its bounds. *)
Lemma range_closed (doc : obj) (path : string) (lo hi : Z) :
  satisfies doc path (Range (JDate (Instant lo)) (JDate (Instant hi))) = true <->
  exists t, prop doc path = JDate (Instant t) /\ lo <= t <= hi.
Proof.
  simpl. split.
  - destruct (prop doc path) as [| | | | |[t|]| |]; try discriminate.
    rewrite andb_true_iff, !Z.leb_le. intros [Hlo Hhi]. exists t. split; [reflexivity|lia].
  - intros (t & -> & Hlo & Hhi). apply andb_true_iff. rewrite !Z.leb_le. lia.
Qed.

Lemma relativeTag_months (n : Z) :
  In n [3; 6; 9; 12; 15; 18] -> assoc (relativeTag n) months = Some n.
Proof.
  simpl. intros Hn.
  repeat (destruct Hn as [<-|Hn]; [reflexivity|]). destruct Hn.
Qed.

(** C7: for the named range of [n] months, [last_<n>_months] with [n] one
    of 3, 6, 9, 12, 15, 18, the filter of the query bounds [createdAt]
    below by the start of the day [n] months before the time the handler
    reads, and above by the end of the day it reads, both bounds included;
    for [all_time] the filter has no clause on a date. *)
Theorem getPlans_date_filter
    (request : Request) (value : obj) (w : World) (owner : ObjectId) :
  joi.validate filterSchema (listParameters (query request)) = inr value ->
  newObjectId (user_identifier request) = Some owner ->
  (forall n : Z,
     In n [3; 6; 9; 12; 15; 18] ->
     prop value "dateRange" = JStr (relativeTag n) ->
     let lower := startOfDay (subMonths (clock (clockReads w)) n) in
     let upper := endOfDay (clock (S (clockReads w))) in
     let bounds := Range (JDate (Instant lower)) (JDate (Instant upper)) in
     (exists (result : obj) (records : list obj) (w' : World),
        exec (getPlans request) w =
          (Responded httpStatus.OK (JsonPage result records), w') /\
        storeLog w' = storeLog w ++
          [PlanPaginate
             (Field "ownerId" (Equals (JId owner)) :: Field "createdAt" bounds ::
              searchClauses value)
             (limitOption value) (pageOption value)]) /\
     (forall doc : obj,
        satisfies doc "createdAt" bounds = true <->
        exists t, prop doc "createdAt" = JDate (Instant t) /\ lower <= t <= upper)) /\
  (prop value "dateRange" = JStr "all_time" ->
     let f := Field "ownerId" (Equals (JId owner)) :: searchClauses value in
     rangePaths f = [] /\ ~ In "createdAt" (filterPaths f) /\
     exists (result : obj) (records : list obj) (w' : World),
       exec (getPlans request) w =
         (Responded httpStatus.OK (JsonPage result records), w') /\
       storeLog w' = storeLog w ++
         [PlanPaginate f (limitOption value) (pageOption value)]).
Proof.
  intros Hv Ho. split.
  - intros n Hin Htag lower upper bounds.
    pose proof (relativeTag_months n Hin) as Hn.
    set (tag := relativeTag n) in *. clearbody tag.
    split.
    + pose proof (listValidated_query request value w _ _ owner
                    (resolveDates_relative value w tag n Htag Hn) Ho) as Hq.
      destruct (months_tag_relative tag n Hn) as (_ & Ha & _).
      rewrite buildFilters_shape, Htag in Hq.
      rewrite bool_decide_eq_false_2 in Hq by exact Ha. simpl in Hq.
      rewrite searchClauses_cast in Hq. destruct Hq as (result & records & Hq).
      exists result, records. eexists. split.
      * rewrite (getPlans_validated request value w Hv). exact Hq.
      * reflexivity.
    + intros doc. apply range_closed.
  - intros Hall f. split; [|split].
    + unfold f. simpl. apply searchClauses_rangePaths.
    + unfold f. simpl. intros [Hp|Hp]; [discriminate|].
      apply searchClauses_paths in Hp. destruct Hp; discriminate.
    + pose proof (listValidated_query request value w _ _ owner
                    (resolveDates_fixed value w (or_intror Hall)) Ho) as Hq.
      rewrite buildFilters_shape, Hall in Hq.
      rewrite bool_decide_eq_true_2 in Hq by reflexivity. simpl in Hq.
      rewrite searchClauses_cast in Hq. destruct Hq as (result & records & Hq).
      exists result, records. eexists. split.
      * rewrite (getPlans_validated request value w Hv). exact Hq.
      * reflexivity.
Qed.

(** C8: after validation the assertion on the table of months never
    fires: a tag that is neither [custom] nor [all_time] has a non-zero
    entry and the dates are resolved; a value whose tag is none of the
    eight ends the handler with an uncaught exception, never with a
    response. *)
Theorem months_assertion_unreachable :
  (forall (parameters value : obj) (w : World),
     joi.validate filterSchema parameters = inr value ->
     prop value "dateRange" <> JStr "custom" ->
     prop value "dateRange" <> JStr "all_time" ->
     truthy (months_at (prop value "dateRange")) = true /\
     exists dates, resolveDates value w = (inr dates, ticked 2 w)) /\
  (forall (request : Request) (value : obj) (w : World),
     ~ In (prop value "dateRange") dateRanges ->
     exists (e : JsError) (w' : World),
       exec (listValidated request value) w = (Threw e, w')).
Proof.
  split.
  - intros parameters value w Hv Hc Ha.
    destruct (months_total _ (validated_dateRange parameters value Hv) Hc Ha)
      as (tag & n & Htag & Hn).
    destruct (months_tag_relative tag n Hn) as (_ & _ & Hz).
    split.
    + rewrite Htag. unfold months_at. rewrite Hn. unfold num, truthy.
      rewrite number_truthy_of_Z. destruct (Z.eqb_spec n 0); [lia|reflexivity].
    + eexists. apply (resolveDates_relative value w tag n Htag Hn).
  - intros request value w Hout.
    assert (prop value "dateRange" <> JStr "custom") as Hc.
    { intros Heq. apply Hout. rewrite Heq. simpl. tauto. }
    assert (prop value "dateRange" <> JStr "all_time") as Ha.
    { intros Heq. apply Hout. rewrite Heq. simpl. tauto. }
    assert (months_at (prop value "dateRange") = JUndefined \/
            months_at (prop value "dateRange") = JObject) as [Hm|Hm].
    { destruct (prop value "dateRange") as [| | | |tag| | |]; try (left; reflexivity).
      unfold months_at. destruct (assoc tag months) as [n|] eqn:Hn.
      - exfalso. apply Hout. revert Hn. unfold months. simpl.
        repeat (case_bool_decide; [intros _; subst tag; tauto|]). discriminate.
      - case_bool_decide; [right|left]; reflexivity. }
    + eexists _, _. apply listValidated_stopped.
      apply (resolveDates_unknown value w Hm Hc Ha).
    + pose proof (resolveDates_inherited value w Hm Hc Ha) as Hd.
      destruct (newObjectId (user_identifier request)) as [owner|] eqn:Ho.
      * pose proof (listValidated_query request value w _ _ owner Hd Ho) as Hq.
        rewrite buildFilters_shape in Hq.
        rewrite bool_decide_eq_false_2 in Hq by exact Ha. simpl in Hq.
        eexists _, _. exact Hq.
      * eexists _, _. apply (listValidated_bad_caller request value w _ _ Hd Ho).
Qed.


End DateRangeProperties.

Section NameProperties.
Context `{Platform}.

Lemma len_zero (s : string) : Js.len s = 0 <-> s = "".
Proof.
  unfold Js.len. destruct s; simpl; split; intros Hs; try reflexivity; try discriminate; lia.
Qed.

(** C9, as the code has it: a name passes the constraint of the create
    schema exactly when its trimmed length is between 2 and 100; the value
    kept is the trimmed name. *)
Theorem name_constraint_bounds (raw : string) :
  nameConstraint (JStr raw) =
    Some (let n := Js.len (Js.trim raw) in
          if (2 <=? n) && (n <=? 100) then inr (JStr (Js.trim raw))
          else inl (joi.mkError
                      (if n =? 0 then "string.empty"
                       else if n <? 2 then "string.min" else "string.max")
                      "name")).
Proof.
  unfold nameConstraint.
  change (joi.child "name" planSchema)
    with (Some (joi.string_ |> joi.trim |> joi.min 2 |> joi.max 100 |> joi.required)).
  simpl option_map. f_equal.
  set (s := joi.required (joi.max 100 (joi.min 2 (joi.trim joi.string_)))).
  assert (joi.kind s = joi.KString) as Hkind by reflexivity.
  assert (joi.hasRule joi.Trim s = true) as Htrim by reflexivity.
  assert (joi.hasRule joi.Lowercase s = false) as Hlower by reflexivity.
  assert (joi.emptyString s = false) as Hempty by reflexivity.
  assert (joi.allowed s = []) as Hallowed by reflexivity.
  assert (joi.only s = false) as Honly by reflexivity.
  assert (joi.rules s = [joi.Trim; joi.Min 2; joi.Max 100]) as Hrules by reflexivity.
  unfold joi.validateKey, joi.coerce, joi.checkBase.
  rewrite Hkind, Htrim, Hlower, Hempty, Hallowed, Honly, Hrules. clearbody s.
  cbv zeta. simpl andb. cbv iota.
  rewrite bool_decide_eq_false_2 by discriminate.
  rewrite bool_decide_eq_false_2 by (intros Hin; inversion Hin).
  pose proof (len_zero (Js.trim raw)) as Hzero.
  pose proof (Nat2Z.is_nonneg (String.length (Js.trim raw))) as Hpos.
  fold (Js.len (Js.trim raw)) in Hpos.
  case_bool_decide as Hnil.
  - rewrite Hnil. reflexivity.
  - assert (Js.len (Js.trim raw) <> 0) as Hne by tauto.
    simpl joi.checkRules.
    destruct (Z.leb_spec 2 (Js.len (Js.trim raw)));
      destruct (Z.leb_spec (Js.len (Js.trim raw)) 100);
      destruct (Z.eqb_spec (Js.len (Js.trim raw)) 0);
      destruct (Z.ltb_spec (Js.len (Js.trim raw)) 2);
      simpl; try reflexivity; lia.
Qed.

End NameProperties.

Section CustomRangeProperties.
Context `{Platform}.

Lemma customQuery_validates :
  joi.validate filterSchema (listParameters customQuery) = inr customValue.
Proof. exact eq_refl. Qed.

(** C4: a list request that asks for the [custom] range and gives neither
    [start_date] nor [end_date] passes validation: the condition of the
    schema looks at a key [date_range], which the validated object does not
    have.  The handler goes on to the store with bounds that are not dates. *)
Theorem getPlans_custom_without_dates_accepted (b : obj) (p : string) (w : World) :
  let request := mkRequest b customQuery p anyCaller in
  joi.validate filterSchema (listParameters (query request)) = inr customValue /\
  prop (listParameters (query request)) "date_range" = JUndefined /\
  prop customValue "dateRange" = JStr "custom" /\
  prop customValue "startDate" = JUndefined /\
  prop customValue "endDate" = JUndefined /\
  exec (getPlans request) w =
    (Threw (CastError "createdAt"),
     logged (PlanPaginate
               [Field "ownerId" (Equals (JId (Oid anyCaller)));
                Field "createdAt" (Range (JDate InvalidDate) (JDate InvalidDate))]
               (limitOption customValue) (pageOption customValue)) w).
Proof.
  intros request.
  split; [exact customQuery_validates|].
  split; [reflexivity|]. split; [reflexivity|].
  split; [reflexivity|]. split; [reflexivity|].
  rewrite (getPlans_validated request customValue w customQuery_validates).
  pose proof (listValidated_query request customValue w w
                (prop customValue "startDate", prop customValue "endDate")
                (Oid anyCaller)
                (resolveDates_fixed customValue w (or_introl eq_refl)) eq_refl) as Hq.
  exact Hq.
Qed.

End CustomRangeProperties.

(** ** The properties on concrete requests *)

Section Witnesses.
Local Existing Instance Reference.platform.

Lemma starter_validates :
  joi.validate planSchema (createParameters (body Example.createRequest)) =
  inr Example.starterValue.
Proof. exact eq_refl. Qed.

Lemma listRequest_validates :
  joi.validate filterSchema (listParameters (query Example.listRequest)) =
  inr Example.listValue.
Proof. exact eq_refl. Qed.

(** The scenarios of the specification: the gate for [admin] forbids a
    [member], the gate for [member] forwards the request; the "Starter"
    plan is created with its code in lower case and the defaults filled
    in. *)
Example requireRole_member_forbidden :
  exec (requireRole "admin" Example.lookupRequest) Example.memberWorld =
    (Responded httpStatus.FORBIDDEN
       (JsonMessage (Text "The requested resource is forbidden.")),
     logged (UserFindById anyCaller) Example.memberWorld).
Proof. reflexivity. Qed.

Example requireRole_member_forwarded :
  exec (requireRole "member" Example.lookupRequest) Example.memberWorld =
    (Forwarded, logged (UserFindById anyCaller) Example.memberWorld).
Proof. reflexivity. Qed.

Example starter_created :
  (exec (postPlans Example.createRequest) Example.emptyWorld).1 =
    Responded httpStatus.CREATED
      (JsonObject (toExternal (savedPlan Example.emptyWorld Example.owner
                                 Example.starterValue))) /\
  prop Example.starterValue "code" = JStr "starter" /\
  prop Example.starterValue "setupFee" = JNum 0 /\
  prop Example.starterValue "trialPeriod" = JNum 0 /\
  prop Example.starterValue "renews" = JBool true.
Proof. repeat split; exact eq_refl. Qed.

(** The "Starter" plan is created for the caller, whatever [ownerId] its
    body carries. *)
Lemma postPlans_owner_is_caller_witness :
  exists (saved : obj) (w' : World),
    exec (postPlans Example.createRequest) Example.emptyWorld =
      (Responded httpStatus.CREATED (JsonObject (toExternal saved)), w') /\
    plans w' = plans Example.emptyWorld ++ [saved] /\
    prop saved "ownerId" = JId Example.owner /\
    prop (toExternal saved) "ownerId" = JId Example.owner /\
    forall v : jsval,
      exec (postPlans (mkRequest (<["ownerId" := v]> (body Example.createRequest))
                         (query Example.createRequest)
                         (params_identifier Example.createRequest)
                         (user_identifier Example.createRequest))) Example.emptyWorld =
      exec (postPlans Example.createRequest) Example.emptyWorld.
Proof.
  apply (postPlans_owner_is_caller Example.createRequest Example.emptyWorld
           Example.starterValue Example.owner starter_validates);
    reflexivity.
Defined.

(** A second "Starter" plan of the same caller is refused. *)
Lemma postPlans_duplicate_code_rejected_witness :
  exists w' : World,
    exec (postPlans Example.createRequest) Example.ownWorld =
      (Responded httpStatus.BAD_REQUEST
         (JsonMessage (Text "A plan with the specified code already exists.")), w') /\
    plans w' = plans Example.ownWorld /\
    storeLog w' = storeLog Example.ownWorld ++
      [PlanFindOne (duplicateFilter Example.owner Example.starterValue)].
Proof.
  apply (postPlans_duplicate_code_rejected Example.createRequest Example.ownWorld
           Example.starterValue Example.ownPlan Example.owner starter_validates).
  - reflexivity.
  - left. reflexivity.
  - reflexivity.
  - reflexivity.
Defined.

(** The plan of a stranger is answered like a plan that does not exist. *)
Lemma getPlan_not_found_uniform_witness :
  (exec (getPlan Example.lookupRequest) Example.foreignWorld).1 =
    Responded httpStatus.NOT_FOUND
      (JsonMessage (Text "Cannot find a plan with the specified identifier.")) /\
  (exec (getPlan Example.lookupRequest) Example.foreignWorld).1 =
  (exec (getPlan Example.lookupRequest) Example.emptyWorld).1.
Proof.
  apply (proj2 (getPlan_not_found_uniform Example.lookupRequest Example.owner
                  eq_refl eq_refl)
           Example.foreignWorld Example.emptyWorld Example.foreignPlan Example.stranger).
  - left. reflexivity.
  - reflexivity.
  - reflexivity.
  - discriminate.
  - intros p [<-|[]] _. reflexivity.
  - intros p [].
Defined.

(** The range of the last three months, read at the reference clock. *)
Lemma getPlans_date_filter_witness :
  let lower := startOfDay (subMonths (clock 0%nat) 3) in
  let upper := endOfDay (clock 1%nat) in
  exists (result : obj) (records : list obj) (w' : World),
    exec (getPlans Example.listRequest) Example.emptyWorld =
      (Responded httpStatus.OK (JsonPage result records), w') /\
    storeLog w' =
      [PlanPaginate
         [Field "ownerId" (Equals (JId Example.owner));
          Field "createdAt" (Range (JDate (Instant lower)) (JDate (Instant upper)))]
         (limitOption Example.listValue) (pageOption Example.listValue)].
Proof.
  exact (proj1 (proj1 (getPlans_date_filter Example.listRequest Example.listValue
                         Example.emptyWorld Example.owner
                         listRequest_validates eq_refl)
                  3 (or_introl eq_refl) eq_refl)).
Defined.

(** The tag [last_3_months] has its entry; the tag [last_week] ends the
    handler with an exception. *)
Lemma months_assertion_unreachable_witness :
  (truthy (months_at (prop Example.listValue "dateRange")) = true /\
   exists dates,
     resolveDates Example.listValue Example.emptyWorld =
       (inr dates, ticked 2 Example.emptyWorld)) /\
  exists (e : JsError) (w' : World),
    exec (listValidated Example.listRequest Example.strayValue) Example.emptyWorld =
      (Threw e, w').
Proof.
  split.
  - apply (proj1 months_assertion_unreachable
             (listParameters (query Example.listRequest)) Example.listValue
             Example.emptyWorld listRequest_validates); discriminate.
  - apply (proj2 months_assertion_unreachable
             Example.listRequest Example.strayValue Example.emptyWorld).
    simpl. intuition discriminate.
Defined.


(** C9, as the claim states it, fails: the one-character name ["A"] has a
    trimmed length of 1 and is refused. *)
Lemma name_of_length_one_rejected :
  ~ (forall raw : string,
       1 <= Js.len (Js.trim raw) <= 100 ->
       exists v, nameConstraint (JStr raw) = Some (inr v)).
Proof.
  intros Hclaim.
  destruct (Hclaim "A") as [v Hv].
  - unfold Js.len. simpl. lia.
  - assert (nameConstraint (JStr "A") = Some (inl (joi.mkError "string.min" "name")))
      as Hcode by exact eq_refl.
    congruence.
Qed.

End Witnesses.

(** * Further properties *)

Section GateProperties.
Context `{Platform}.

Lemma requireRole_run (role : string) (request : Request) (w : World) :
  exec (requireRole role request) w =
    (gateOutcome role (user_identifier request) w,
     logged (UserFindById (user_identifier request)) w).
Proof.
  unfold exec, requireRole, bind, User_findById, gateOutcome.
  destruct (userStoreFault w); [reflexivity|].
  destruct (newObjectId (user_identifier request)); [|reflexivity].
  destruct (find _ (users w)) as [user|]; [|reflexivity].
  simpl. destruct (bool_decide (prop user "role" = JStr role)); reflexivity.
Qed.

(** X1: the gate forwards a request only when the user collection holds
    the caller and the caller's role is the required one. *)
Theorem requireRole_forwards_only_role
    (role : string) (request : Request) (w w' : World) :
  exec (requireRole role request) w = (Forwarded, w') ->
  exists (o : ObjectId) (user : obj),
    newObjectId (user_identifier request) = Some o /\
    In user (users w) /\
    prop user "_id" = JId o /\
    prop user "role" = JStr role.
Proof.
  rewrite requireRole_run. unfold gateOutcome. intros Hrun.
  destruct (userStoreFault w); [discriminate|].
  destruct (newObjectId (user_identifier request)) as [o|]; [|discriminate].
  destruct (find _ (users w)) as [user|] eqn:Hfind; [|discriminate].
  case_bool_decide as Hrole; [|discriminate].
  exists o, user. split; [reflexivity|].
  apply find_some in Hfind. destruct Hfind as [Hin Hm].
  split; [exact Hin|]. split; [|exact Hrole].
  unfold matches in Hm. simpl in Hm.
  rewrite andb_true_r in Hm. apply bool_decide_eq_true in Hm. exact Hm.
Qed.

(** X2: a caller whose stored role differs from the required one is
    answered FORBIDDEN with the fixed message; the request is not
    forwarded. *)
Theorem requireRole_other_role_forbidden
    (role : string) (request : Request) (w : World) (o : ObjectId) (user : obj) :
  userStoreFault w = None ->
  newObjectId (user_identifier request) = Some o ->
  find (matches [Field "_id" (Equals (JId o))]) (users w) = Some user ->
  prop user "role" <> JStr role ->
  exec (requireRole role request) w =
    (Responded httpStatus.FORBIDDEN
       (JsonMessage (Text "The requested resource is forbidden.")),
     logged (UserFindById (user_identifier request)) w).
Proof.
  intros Hfault Ho Hfind Hrole. rewrite requireRole_run. unfold gateOutcome.
  rewrite Hfault, Ho, Hfind. rewrite bool_decide_eq_false_2 by exact Hrole.
  reflexivity.
Qed.

(** X3: an error of the user lookup is thrown as it is: the gate neither
    answers nor forwards. *)
Theorem requireRole_lookup_error_thrown
    (role : string) (request : Request) (w : World) (e : JsError) :
  userStoreFault w = Some e ->
  exec (requireRole role request) w =
    (Threw e, logged (UserFindById (user_identifier request)) w).
Proof.
  intros Hfault. rewrite requireRole_run. unfold gateOutcome. rewrite Hfault.
  reflexivity.
Qed.

End GateProperties.

Section ProjectionProperties.
Context `{Platform}.

Lemma toExternal_lookup (plan : obj) (k : string) :
  In k externalFields ->
  toExternal plan !! k = Some (if bool_decide (k = "id") then id_of plan else prop plan k).
Proof.
  unfold externalFields, toExternal. cbn [list_to_map foldr uncurry fst snd].
  intros Hk. simpl in Hk.
  repeat (destruct Hk as [<-|Hk];
          [repeat (rewrite lookup_insert_ne by done); rewrite lookup_insert_eq; reflexivity|]).
  destruct Hk.
Qed.

(** X4: the external representation has the fifteen fields of
    [externalFields] and no other; [id] is the identifier of the document
    as text and every other field is the field of the document. *)
Theorem toExternal_fields (plan : obj) (k : string) :
  (In k externalFields <-> is_Some (toExternal plan !! k)) /\
  (In k externalFields -> k <> "id" -> prop (toExternal plan) k = prop plan k) /\
  (forall o, prop plan "_id" = JId o ->
     prop (toExternal plan) "id" = JStr (toHexString o)) /\
  prop (toExternal plan) "_id" = JUndefined.
Proof.
  split; [|split; [|split]].
  - split.
    + intros Hk. rewrite (toExternal_lookup plan k Hk). eauto.
    + intros [v Hv]. destruct (decide (In k externalFields)) as [|Hnot]; [assumption|].
      exfalso. unfold toExternal in Hv.
      rewrite not_elem_of_list_to_map_1 in Hv; [discriminate|].
      intros Hin. apply Hnot. apply list_elem_of_In in Hin. exact Hin.
  - intros Hk Hid. unfold prop at 1. rewrite (toExternal_lookup plan k Hk).
    rewrite bool_decide_eq_false_2 by exact Hid. reflexivity.
  - intros o Ho. unfold prop at 1. rewrite (toExternal_lookup plan "id").
    + simpl. unfold id_of. rewrite Ho. reflexivity.
    + simpl. tauto.
  - unfold prop, toExternal. rewrite not_elem_of_list_to_map_1; [reflexivity|].
    intros Hin. apply list_elem_of_In in Hin. simpl in Hin. intuition discriminate.
Qed.

End ProjectionProperties.

Section GetPlanProperties.
Context `{Platform}.

Lemma oid_eta (o : ObjectId) : Oid (toHexString o) = o.
Proof. destruct o. reflexivity. Qed.

(** X5: whenever [GET /plans/:identifier] answers OK, the body is the
    external representation of a plan of the collection that has the
    requested identifier and the caller as owner: a plan of somebody else
    is never returned. *)
Theorem getPlan_ok_only_own_plan
    (request : Request) (w w' : World) (b : Body) :
  exec (getPlan request) w = (Responded httpStatus.OK b, w') ->
  exists (owner id : ObjectId) (plan : obj),
    newObjectId (user_identifier request) = Some owner /\
    newObjectId (params_identifier request) = Some id /\
    In plan (plans w) /\
    prop plan "_id" = JId id /\
    prop plan "ownerId" = JId owner /\
    b = JsonObject (toExternal plan).
Proof.
  intros Hrun.
  destruct (identifierPattern (params_identifier request)) eqn:Hp.
  2:{ rewrite (getPlan_rejects_unmatched request w Hp) in Hrun. discriminate. }
  destruct (newObjectId (user_identifier request)) as [owner|] eqn:Hc.
  2:{ rewrite (getPlan_bad_caller request w Hp Hc) in Hrun. discriminate. }
  destruct (newObjectId (params_identifier request)) as [id|] eqn:Hi.
  2:{ rewrite (getPlan_bad_identifier request w Hp Hi) in Hrun. discriminate. }
  rewrite (getPlan_lookup request w owner id Hp Hc Hi) in Hrun.
  destruct (find _ (plans w)) as [plan|] eqn:Hfind; [|discriminate].
  apply find_some in Hfind. destruct Hfind as [Hin Hm].
  apply matches_two in Hm. destruct Hm as [Hid Hown].
  exists owner, id, plan. injection Hrun as Hb _. subst b.
  repeat split; try reflexivity; assumption.
Qed.

(** X6: the caller's own plan is answered OK with its external
    representation, and the store is asked once. *)
Theorem getPlan_own_plan_returned
    (request : Request) (w : World) (owner : ObjectId) (plan : obj) :
  wellFormed (params_identifier request) = true ->
  newObjectId (user_identifier request) = Some owner ->
  In plan (plans w) ->
  prop plan "_id" = JId (Oid (params_identifier request)) ->
  prop plan "ownerId" = JId owner ->
  (forall p, In p (plans w) ->
     prop p "_id" = JId (Oid (params_identifier request)) -> p = plan) ->
  exec (getPlan request) w =
    (Responded httpStatus.OK (JsonObject (toExternal plan)),
     logged (PlanFindById (Oid (params_identifier request)) owner) w).
Proof.
  intros Hwf Hc Hin Hid Hown Huniq.
  rewrite (getPlan_lookup request w owner _ (wellFormed_pattern _ Hwf) Hc
             (wellFormed_objectId _ Hwf)).
  destruct (find_some_of _ (plans w) plan Hin (proj2 (matches_two _ _ _ _ plan)
              (conj Hid Hown))) as [found Hfound].
  rewrite Hfound. apply find_some in Hfound. destruct Hfound as [Hfin Hm].
  apply matches_two in Hm. destruct Hm as [Hfid _].
  rewrite (Huniq found Hfin Hfid). reflexivity.
Qed.

(** X7: an identifier that is not 24 characters long, or has a character
    that is neither a lower-case letter nor a digit, is answered
    BAD_REQUEST; nothing is asked of the store and the world is as it
    was. *)
Theorem getPlan_malformed_identifier_rejected (request : Request) (w : World) :
  String.length (params_identifier request) <> 24%nat \/
  Js.all (fun c => Js.isLower c || Js.isDigit c) (params_identifier request) = false ->
  exec (getPlan request) w =
    (Responded httpStatus.BAD_REQUEST
       (JsonMessage (Text "The specified plan identifier is invalid.")), w).
Proof.
  intros Hbad. apply getPlan_rejects_unmatched. unfold identifierPattern.
  destruct Hbad as [Hlen|Hall].
  - apply Nat.eqb_neq in Hlen. rewrite Hlen. reflexivity.
  - rewrite Hall. apply andb_false_r.
Qed.

End GetPlanProperties.

Section CreateSchemaProperties.
Context `{Platform}.

Lemma planSchema_keys : List.NoDup (map fst planSchema).
Proof.
  simpl. repeat constructor; simpl; intuition discriminate.
Qed.

Lemma createParameters_prop (b : obj) (k : string) :
  In k (map fst planSchema) -> prop (createParameters b) k = prop b k.
Proof.
  unfold createParameters, prop at 1. cbn [list_to_map foldr uncurry fst snd].
  simpl. intros Hk.
  repeat (destruct Hk as [<-|Hk];
          [repeat (rewrite lookup_insert_ne by done); rewrite lookup_insert_eq; reflexivity|]).
  destruct Hk.
Qed.

Lemma validate_rejects (keys : joi.ObjectSchema) (value0 : obj)
    (key : string) (s : joi.Schema) :
  List.NoDup (map fst keys) ->
  In (key, s) keys ->
  (forall parent v, joi.validateKey key s parent (prop value0 key) <> inr v) ->
  exists e, joi.validate keys value0 = inl e.
Proof.
  intros Hnd Hin Hbad.
  destruct (joi.validate keys value0) as [e|value] eqn:Hv; [eauto|].
  destruct (validate_child keys value0 value key s Hnd Hv Hin) as [parent Hkey].
  exfalso. exact (Hbad parent _ Hkey).
Qed.

Lemma coerce_undefined (s : joi.Schema) : joi.coerce s JUndefined = inr JUndefined.
Proof. unfold joi.coerce. destruct (joi.kind s); reflexivity. Qed.

Lemma coerce_null (s : joi.Schema) : joi.coerce s JNull = inr JNull.
Proof. unfold joi.coerce. destruct (joi.kind s); reflexivity. Qed.

Lemma validateKey_required_undefined (key : string) (s : joi.Schema) (parent : obj) :
  joi.isRequired s = true ->
  joi.validateKey key s parent JUndefined = inl (joi.mkError "any.required" key).
Proof.
  intros Hreq. unfold joi.validateKey, joi.presence.
  rewrite coerce_undefined, Hreq. cbv zeta.
  destruct (joi.emptyString s); reflexivity.
Qed.

Lemma validateKey_absent (key : string) (s : joi.Schema) (parent : obj) :
  joi.isRequired s = false -> joi.conditions s = [] ->
  joi.validateKey key s parent JUndefined = inr (joi.finalizeAbsent s).
Proof.
  intros Hreq Hcond. unfold joi.validateKey, joi.presence.
  rewrite coerce_undefined, Hreq, Hcond. cbv zeta.
  destruct (joi.emptyString s); reflexivity.
Qed.

Lemma validateKey_null (key : string) (s : joi.Schema) (parent : obj) (v : jsval) :
  ~ In JNull (joi.allowed s) ->
  joi.validateKey key s parent JNull <> inr v.
Proof.
  intros Hnot. unfold joi.validateKey. rewrite coerce_null. cbv zeta.
  rewrite (bool_decide_eq_false_2 (JNull = JStr "")) by discriminate.
  rewrite andb_false_r.
  rewrite (bool_decide_eq_false_2 (JNull = JUndefined)) by discriminate.
  rewrite bool_decide_eq_false_2 by (intros Hin; apply Hnot, list_elem_of_In, Hin).
  destruct (joi.only s); [discriminate|].
  unfold joi.checkBase. destruct (joi.kind s); discriminate.
Qed.

Lemma postPlans_invalid (request : Request) (w : World) (e : joi.Error) :
  joi.validate planSchema (createParameters (body request)) = inl e ->
  exec (postPlans request) w =
    (Responded httpStatus.BAD_REQUEST (JsonMessage (ErrorMessage e)), w).
Proof.
  intros Hv. unfold exec, postPlans. rewrite Hv. reflexivity.
Qed.

(** X8: a create request that leaves out a required field, or gives
    [null] for it, is answered BAD_REQUEST with a validation message;
    nothing is asked of the store and nothing is written. *)
Theorem postPlans_required_field_missing
    (request : Request) (w : World) (k : string) :
  In k requiredFields ->
  prop (body request) k = JUndefined \/ prop (body request) k = JNull ->
  exists e : joi.Error,
    exec (postPlans request) w =
      (Responded httpStatus.BAD_REQUEST (JsonMessage (ErrorMessage e)), w).
Proof.
  intros Hk Hmissing.
  assert (exists e, joi.validate planSchema (createParameters (body request)) = inl e)
    as [e He]; [|exists e; exact (postPlans_invalid request w e He)].
  unfold requiredFields in Hk. simpl in Hk.
  repeat (destruct Hk as [<-|Hk];
    [match type of Hmissing with
     | prop _ ?key = _ \/ _ => eapply (validate_rejects planSchema _ key)
     end;
       [exact planSchema_keys
       |simpl; eauto 15
       |intros parent v; rewrite createParameters_prop by (simpl; tauto);
        destruct Hmissing as [-> | ->];
          [rewrite validateKey_required_undefined by reflexivity; discriminate
          |apply validateKey_null; simpl; intuition discriminate]]|]).
  destruct Hk.
Qed.

(** X9: in a validated create request the optional fields that the body
    leaves out have their defaults: no description, no setup fee, no trial
    period, trial period in days, renewal on. *)
Theorem planSchema_defaults (b value : obj) :
  joi.validate planSchema (createParameters b) = inr value ->
  (prop b "description" = JUndefined -> prop value "description" = JNull) /\
  (prop b "setupFee" = JUndefined -> prop value "setupFee" = num 0) /\
  (prop b "trialPeriod" = JUndefined -> prop value "trialPeriod" = num 0) /\
  (prop b "trialPeriodUnit" = JUndefined -> prop value "trialPeriodUnit" = JStr "days") /\
  (prop b "renews" = JUndefined -> prop value "renews" = JBool true).
Proof.
  intros Hv.
  assert (forall key s,
            In (key, s) planSchema ->
            joi.isRequired s = false -> joi.conditions s = [] ->
            prop b key = JUndefined -> prop value key = joi.finalizeAbsent s) as Hdefault.
  { intros key s Hin Hreq Hcond Hb.
    destruct (validate_child planSchema _ value key s planSchema_keys Hv Hin)
      as [parent Hkey].
    rewrite createParameters_prop in Hkey by (apply (in_map fst _ _ Hin)).
    rewrite Hb, (validateKey_absent key s parent Hreq Hcond) in Hkey.
    congruence. }
  repeat split; intros Hb.
  - apply (Hdefault "description"
             (joi.string_ |> joi.trim |> joi.max 200 |> joi.allow JNull
                |> joi.empty |> joi.default_ JNull)); try reflexivity; [simpl; tauto|exact Hb].
  - apply (Hdefault "setupFee" (joi.number_ |> joi.default_ (num 0)));
      try reflexivity; [simpl; tauto|exact Hb].
  - apply (Hdefault "trialPeriod" (joi.number_ |> joi.integer |> joi.default_ (num 0)));
      try reflexivity; [simpl; tauto|exact Hb].
  - apply (Hdefault "trialPeriodUnit"
             (joi.string_ |> joi.valid [JStr "days"; JStr "months"]
                |> joi.default_ (JStr "days")));
      try reflexivity; [simpl; tauto|exact Hb].
  - apply (Hdefault "renews" (joi.boolean |> joi.default_ (JBool true)));
      try reflexivity; [simpl; tauto|exact Hb].
Qed.

End CreateSchemaProperties.

Section StringProperties.

Lemma lowerChar_not_upper (c : ascii) : Js.isUpper (Js.lowerChar c) = false.
Proof. destruct c as [[] [] [] [] [] [] [] []]; reflexivity. Qed.

Lemma toLowerCase_not_upper (s : string) :
  Js.all (fun c => negb (Js.isUpper c)) (Js.toLowerCase s) = true.
Proof.
  induction s as [|c r IH]; simpl; [reflexivity|].
  rewrite lowerChar_not_upper, IH. reflexivity.
Qed.

Lemma all_trimStart (p : ascii -> bool) (s : string) :
  Js.all p s = true -> Js.all p (Js.trimStart s) = true.
Proof.
  induction s as [|c r IH]; simpl; [reflexivity|].
  intros Hs. destruct (Js.isSpace c); [|exact Hs].
  apply IH. apply andb_true_iff in Hs. tauto.
Qed.

Lemma all_trimEnd (p : ascii -> bool) (s : string) :
  Js.all p s = true -> Js.all p (Js.trimEnd s) = true.
Proof.
  induction s as [|c r IH]; simpl; [reflexivity|].
  intros Hs. apply andb_true_iff in Hs. destruct Hs as [Hc Hr].
  specialize (IH Hr). destruct (Js.trimEnd r) as [|c' r'].
  - destruct (Js.isSpace c); simpl; [reflexivity|]. rewrite Hc. reflexivity.
  - simpl in *. rewrite Hc. exact IH.
Qed.

Lemma all_trim (p : ascii -> bool) (s : string) :
  Js.all p s = true -> Js.all p (Js.trim s) = true.
Proof. intros Hs. unfold Js.trim. apply all_trimEnd, all_trimStart, Hs. Qed.

Lemma all_both (p q : ascii -> bool) (s : string) :
  Js.all p s = true -> Js.all q s = true -> Js.all (fun c => p c && q c) s = true.
Proof.
  induction s as [|c r IH]; simpl; [reflexivity|].
  rewrite !andb_true_iff. intros [Hp Hpr] [Hq Hqr]. auto.
Qed.

End StringProperties.

Section FieldProperties.
Context `{Platform}.

Lemma coerce_string (s : joi.Schema) (raw : jsval) :
  joi.kind s = joi.KString -> joi.coerce s raw = inr (converted s raw).
Proof.
  intros Hkind. unfold joi.coerce, converted. rewrite Hkind.
  destruct raw; reflexivity.
Qed.

(** How a value gets through a [joi.string()] schema without [valid()]:
    absent (or emptied) and replaced by the default, or one of the allowed
    values, or a non-empty text that passes the rules. *)
Lemma validateKey_string (key : string) (s : joi.Schema) (parent : obj) (raw v : jsval) :
  joi.kind s = joi.KString -> joi.only s = false ->
  joi.validateKey key s parent raw = inr v ->
  (v = joi.finalizeAbsent s /\ joi.presence s parent = false /\
   (converted s raw = JUndefined \/
    (joi.emptyString s = true /\ converted s raw = JStr ""))) \/
  (v = converted s raw /\
   ~ (joi.emptyString s = true /\ converted s raw = JStr "") /\
   (In v (joi.allowed s) \/
    exists u, v = JStr u /\ u <> "" /\ joi.checkRules (joi.rules s) v = None)).
Proof.
  intros Hkind Honly. unfold joi.validateKey.
  rewrite (coerce_string s raw Hkind), Honly. cbv zeta.
  destruct (joi.emptyString s && bool_decide (converted s raw = JStr "")) eqn:Hemptied.
  - apply andb_true_iff in Hemptied. destruct Hemptied as [Hempty Hblank].
    apply bool_decide_eq_true in Hblank.
    rewrite bool_decide_eq_true_2 by reflexivity.
    destruct (joi.presence s parent); [discriminate|].
    intros [= <-]. left. auto.
  - assert (~ (joi.emptyString s = true /\ converted s raw = JStr "")) as Hne.
    { intros [Hempty Hblank]. rewrite Hempty, Hblank in Hemptied.
      rewrite bool_decide_eq_true_2 in Hemptied by reflexivity. discriminate. }
    destruct (bool_decide (converted s raw = JUndefined)) eqn:Hundef.
    + apply bool_decide_eq_true in Hundef.
      destruct (joi.presence s parent); [discriminate|].
      intros [= <-]. left. auto.
    + destruct (bool_decide (converted s raw ∈ joi.allowed s)) eqn:Hallowed.
      { apply bool_decide_eq_true in Hallowed.
        intros [= <-]. right. split; [reflexivity|]. split; [exact Hne|].
        left. apply list_elem_of_In. exact Hallowed. }
      unfold joi.checkBase. rewrite Hkind.
      destruct (converted s raw) as [| | | |u| | |]; try discriminate.
      destruct (bool_decide (u = "")) eqn:Hnil; [discriminate|].
      apply bool_decide_eq_false in Hnil.
      destruct (joi.checkRules (joi.rules s) (JStr u)) eqn:Hrules; [discriminate|].
      intros [= <-]. right. split; [reflexivity|]. split; [exact Hne|]. right. eauto.
Qed.

End FieldProperties.

Section CreateFieldProperties.
Context `{Platform}.

Lemma validateKey_only_strict (key : string) (s : joi.Schema) (parent : obj) (raw v : jsval) :
  joi.only s = true ->
  joi.validateKey key s parent raw = inr v ->
  In v (joi.allowed s) \/ (v = joi.finalizeAbsent s /\ joi.presence s parent = false).
Proof.
  intros Honly. unfold joi.validateKey.
  destruct (joi.coerce s raw) as [e|v0]; [discriminate|].
  cbv zeta.
  generalize (if joi.emptyString s && bool_decide (v0 = JStr "") then JUndefined else v0).
  intros v1. destruct (bool_decide (v1 = JUndefined)).
  - destruct (joi.presence s parent); [discriminate|].
    intros [= <-]. right. auto.
  - destruct (bool_decide (v1 ∈ joi.allowed s)) eqn:Hallowed.
    + apply bool_decide_eq_true in Hallowed. intros [= <-]. left.
      apply list_elem_of_In. exact Hallowed.
    + rewrite Honly. discriminate.
Qed.

(** X10: the code of a validated create request is the text of the body
    in lower case and trimmed; it has 2 to 20 characters, all of them
    lower-case letters or digits. *)
Theorem planSchema_code_normalized (b value : obj) :
  joi.validate planSchema (createParameters b) = inr value ->
  exists t : string,
    prop b "code" = JStr t /\
    prop value "code" = JStr (Js.trim (Js.toLowerCase t)) /\
    2 <= Js.len (Js.trim (Js.toLowerCase t)) <= 20 /\
    Js.all isLowerAlnum (Js.trim (Js.toLowerCase t)) = true.
Proof.
  intros Hv.
  destruct (validate_child planSchema _ value "code"
              (joi.string_ |> joi.trim |> joi.lowercase |> joi.alphanum
                 |> joi.min 2 |> joi.max 20 |> joi.required)
              planSchema_keys Hv) as [parent Hkey]; [simpl; tauto|].
  rewrite createParameters_prop in Hkey by (simpl; tauto).
  apply validateKey_string in Hkey; [|reflexivity|reflexivity].
  destruct Hkey as [(_ & Hpresence & _)|(Hvalue & _ & [Hallowed|(u & Hu & Hne & Hrules)])].
  - discriminate Hpresence.
  - destruct Hallowed.
  - rewrite Hvalue in Hu. destruct (prop b "code") as [| | | |t| | |]; try discriminate Hu.
    exists t. split; [reflexivity|].
    change (converted _ (JStr t)) with (JStr (Js.trim (Js.toLowerCase t))) in *.
    injection Hu as Hu. subst u. split; [exact Hvalue|].
    rewrite Hvalue in Hrules.
    change (joi.rules _)
      with [joi.Trim; joi.Lowercase; joi.Alphanum; joi.Min 2; joi.Max 20] in Hrules.
    simpl in Hrules.
    destruct (Js.all joi.isAlnum (Js.trim (Js.toLowerCase t))) eqn:Halnum;
      [|discriminate Hrules].
    rewrite bool_decide_eq_false_2 in Hrules by exact Hne. simpl in Hrules.
    destruct (Z.leb_spec 2 (Js.len (Js.trim (Js.toLowerCase t)))); [|discriminate Hrules].
    destruct (Z.leb_spec (Js.len (Js.trim (Js.toLowerCase t))) 20); [|discriminate Hrules].
    split; [lia|].
    pose proof (all_both _ _ _ Halnum (all_trim _ _ (toLowerCase_not_upper t))) as Hboth.
    revert Hboth. apply all_impl. intros c.
    unfold joi.isAlnum, isLowerAlnum.
    destruct (Js.isDigit c), (Js.isLower c), (Js.isUpper c); simpl; congruence.
Qed.

(** X11: the units of a validated create request are [days] or [months],
    nothing else. *)
Theorem planSchema_units (b value : obj) :
  joi.validate planSchema (createParameters b) = inr value ->
  In (prop value "billingCyclePeriodUnit") [JStr "days"; JStr "months"] /\
  In (prop value "trialPeriodUnit") [JStr "days"; JStr "months"].
Proof.
  intros Hv. split.
  - destruct (validate_child planSchema _ value "billingCyclePeriodUnit"
                (joi.string_ |> joi.valid [JStr "days"; JStr "months"] |> joi.required)
                planSchema_keys Hv) as [parent Hkey]; [simpl; tauto|].
    apply validateKey_only_strict in Hkey; [|reflexivity].
    destruct Hkey as [Hin|[_ Hpresence]]; [exact Hin|discriminate Hpresence].
  - destruct (validate_child planSchema _ value "trialPeriodUnit"
                (joi.string_ |> joi.valid [JStr "days"; JStr "months"]
                   |> joi.default_ (JStr "days"))
                planSchema_keys Hv) as [parent Hkey]; [simpl; tauto|].
    apply validateKey_only_strict in Hkey; [|reflexivity].
    destruct Hkey as [Hin|[Hdefault _]]; [exact Hin|].
    rewrite Hdefault. simpl. tauto.
Qed.

(** X12: a description that is blank once trimmed is stored as [null]; any
    other description is stored trimmed and has at most 200 characters. *)
Theorem planSchema_description (b value : obj) (t : string) :
  joi.validate planSchema (createParameters b) = inr value ->
  prop b "description" = JStr t ->
  (Js.trim t = "" -> prop value "description" = JNull) /\
  (Js.trim t <> "" ->
     prop value "description" = JStr (Js.trim t) /\ Js.len (Js.trim t) <= 200).
Proof.
  intros Hv Hb.
  destruct (validate_child planSchema _ value "description"
              (joi.string_ |> joi.trim |> joi.max 200 |> joi.allow JNull
                 |> joi.empty |> joi.default_ JNull)
              planSchema_keys Hv) as [parent Hkey]; [simpl; tauto|].
  rewrite createParameters_prop, Hb in Hkey by (simpl; tauto).
  apply validateKey_string in Hkey; [|reflexivity|reflexivity].
  change (converted _ (JStr t)) with (JStr (Js.trim t)) in Hkey.
  destruct Hkey as [(Hvalue & _ & [Hundef|[_ Hblank]])
                   |(Hvalue & Hnotblank & [Hallowed|(u & Hu & Hne & Hrules)])].
  - discriminate Hundef.
  - injection Hblank as Hblank. split; [intros _; exact Hvalue|]. congruence.
  - rewrite Hvalue in Hallowed. simpl in Hallowed.
    destruct Hallowed as [Hnull|[]]. discriminate Hnull.
  - rewrite Hvalue in Hu. injection Hu as Hu. subst u. split; [congruence|].
    intros _. split; [exact Hvalue|].
    rewrite Hvalue in Hrules.
    change (joi.rules _) with [joi.Trim; joi.Max 200] in Hrules. simpl in Hrules.
    destruct (Z.leb_spec (Js.len (Js.trim t)) 200); [assumption|discriminate Hrules].
Qed.

End CreateFieldProperties.

Section CreateCompositionProperties.
Context `{Platform}.

Lemma postPlans_bad_caller (request : Request) (w : World) (value : obj) :
  joi.validate planSchema (createParameters (body request)) = inr value ->
  newObjectId (user_identifier request) = None ->
  exec (postPlans request) w = (Threw objectIdError, w).
Proof.
  intros Hv Ho. unfold exec, postPlans, bind, ObjectId_. rewrite Hv, Ho. reflexivity.
Qed.

Lemma savedPlan_props (w : World) (owner : ObjectId) (value : obj) :
  prop (savedPlan w owner value) "code" = prop value "code" /\
  prop (savedPlan w owner value) "ownerId" = JId owner /\
  prop (savedPlan w owner value) "_id" = JId (generateId (idsIssued w)).
Proof.
  unfold savedPlan. repeat split.
  - rewrite !prop_insert_ne by done. reflexivity.
  - rewrite !prop_insert_ne by done. apply prop_insert_eq.
  - rewrite !prop_insert_ne by done. apply prop_insert_eq.
Qed.

Lemma find_app_none {A} (f : A -> bool) (l k : list A) :
  (forall x, In x l -> f x = false) -> find f (l ++ k) = find f k.
Proof.
  induction l as [|a l IH]; intros Hl; simpl; [reflexivity|].
  rewrite (Hl a) by (left; reflexivity). apply IH. intros x Hx. apply Hl. right. exact Hx.
Qed.

Lemma NoDup_snoc {A} (l : list A) (x : A) :
  List.NoDup l -> ~ In x l -> List.NoDup (l ++ [x]).
Proof.
  induction l as [|a l IH]; intros Hnd Hx; simpl.
  - constructor; [intros []|constructor].
  - inversion Hnd as [|? ? Ha Hl]; subst. constructor.
    + intros Hin. apply in_app_or in Hin. destruct Hin as [Hin|[->|[]]].
      * exact (Ha Hin).
      * apply Hx. left. reflexivity.
    + apply IH; [exact Hl|]. intros Hin. apply Hx. right. exact Hin.
Qed.

Lemma postPlans_split (request : Request) (w : World) :
  exec (postPlans request) w = exec (bind (postPlansCheck request) postPlansSave) w.
Proof.
  unfold exec, postPlans, postPlansCheck, postPlansSave, bind, ObjectId_, Plan_findOne.
  destruct (joi.validate planSchema (createParameters (body request))); [reflexivity|].
  destruct (newObjectId (user_identifier request)); [|reflexivity].
  simpl. destruct (find _ (plans w)); reflexivity.
Qed.

Lemma postPlansCheck_run (request : Request) (w : World) (value : obj) (owner : ObjectId) :
  joi.validate planSchema (createParameters (body request)) = inr value ->
  newObjectId (user_identifier request) = Some owner ->
  postPlansCheck request w =
    (match find (matches (duplicateFilter owner value)) (plans w) with
     | Some _ =>
         inl (Responded httpStatus.BAD_REQUEST
                (JsonMessage (Text "A plan with the specified code already exists.")))
     | None => inr (value, owner)
     end,
     logged (PlanFindOne (duplicateFilter owner value)) w).
Proof.
  intros Hv Ho. unfold postPlansCheck, bind, ObjectId_, Plan_findOne.
  rewrite Hv, Ho. simpl. fold (duplicateFilter owner value).
  destruct (find _ (plans w)); reflexivity.
Qed.

Lemma postPlansCheck_passed (request : Request) (w w1 : World) (pending : obj * ObjectId) :
  postPlansCheck request w = (inr pending, w1) ->
  find (matches (duplicateFilter pending.2 pending.1)) (plans w) = None /\
  plans w1 = plans w.
Proof.
  unfold postPlansCheck, bind, ObjectId_, Plan_findOne.
  destruct (joi.validate planSchema (createParameters (body request))) as [e|value];
    [discriminate|].
  destruct (newObjectId (user_identifier request)) as [owner|]; [|discriminate].
  simpl. fold (duplicateFilter owner value).
  destruct (find _ (plans w)) eqn:Hfind; [discriminate|].
  intros [= <- <-]. split; [exact Hfind|reflexivity].
Qed.

Lemma postPlansCheck_reads (request : Request) (w : World) :
  plans (postPlansCheck request w).2 = plans w.
Proof.
  unfold postPlansCheck, bind, ObjectId_, Plan_findOne.
  destruct (joi.validate planSchema (createParameters (body request))); [reflexivity|].
  destruct (newObjectId (user_identifier request)); [|reflexivity].
  simpl. destruct (find _ (plans w)); reflexivity.
Qed.

Lemma postPlansSave_run (value : obj) (owner : ObjectId) (w : World) :
  exec (postPlansSave (value, owner)) w =
    (Responded httpStatus.CREATED (JsonObject (toExternal (savedPlan w owner value))),
     mkWorld (plans w ++ [savedPlan w owner value]) (users w) (userStoreFault w)
       (storeLog w ++ [PlanSave (savedPlan w owner value)])
       (S (clockReads w)) (S (idsIssued w))).
Proof. reflexivity. Qed.

(** A plan with the owner and the code of a create that found no
    duplicate has a pair no plan of the collection has. *)
Lemma fresh_pair (ps : list obj) (w : World) (owner : ObjectId) (value : obj) :
  find (matches (duplicateFilter owner value)) ps = None ->
  ~ In (planKey (savedPlan w owner value)) (map planKey ps).
Proof.
  intros Hfind Hin. apply in_map_iff in Hin. destruct Hin as (p & Hkey & Hp).
  pose proof (find_none _ _ Hfind p Hp) as Hno.
  destruct (savedPlan_props w owner value) as (Hcode & Hown & _).
  unfold planKey in Hkey. rewrite Hcode, Hown in Hkey. injection Hkey as Hpo Hpc.
  assert (matches (duplicateFilter owner value) p = true) as Hyes.
  { apply matches_two. split; assumption. }
  congruence.
Qed.

Lemma NoDup_twice {A} (l : list A) (x : A) : ~ List.NoDup (l ++ [x; x]).
Proof.
  induction l as [|a l IH]; simpl; intros Hnd; inversion Hnd as [|? ? Hnot Hrest]; subst.
  - apply Hnot. left. reflexivity.
  - exact (IH Hrest).
Qed.

(** X13: a create keeps the plans of the collection distinct in (owner,
    code) as long as nothing is written between its duplicate check and its
    save: the check writes nothing, and a save that runs on the plans its
    check saw leaves no two plans with the same pair; in particular a
    request handled without interruption keeps the pairs distinct. *)
Theorem postPlans_keeps_codes_unique (request : Request) (w : World) :
  uniqueCodes (plans w) ->
  plans (postPlansCheck request w).2 = plans w /\
  (forall (pending : obj * ObjectId) (w1 w2 : World),
     postPlansCheck request w = (inr pending, w1) ->
     plans w2 = plans w ->
     uniqueCodes (plans (exec (postPlansSave pending) w2).2)) /\
  uniqueCodes (plans (exec (postPlans request) w).2).
Proof.
  intros Huniq. split; [apply postPlansCheck_reads|]. split.
  - intros [value owner] w1 w2 Hcheck Hsame.
    apply postPlansCheck_passed in Hcheck. destruct Hcheck as [Hfind _].
    rewrite postPlansSave_run. cbn [snd plans].
    unfold uniqueCodes. rewrite map_app, Hsame. cbn [map].
    apply NoDup_snoc; [exact Huniq|]. apply fresh_pair. exact Hfind.
  - destruct (joi.validate planSchema (createParameters (body request)))
      as [e|value] eqn:Hv.
    { rewrite (postPlans_invalid request w e Hv). exact Huniq. }
    destruct (newObjectId (user_identifier request)) as [owner|] eqn:Ho.
    2:{ rewrite (postPlans_bad_caller request w value Hv Ho). exact Huniq. }
    rewrite (postPlans_validated request w value owner Hv Ho).
    destruct (find _ (plans w)) eqn:Hfind; [exact Huniq|].
    cbn [snd plans]. unfold uniqueCodes. rewrite map_app. cbn [map].
    apply NoDup_snoc; [exact Huniq|]. apply fresh_pair. exact Hfind.
Qed.

(** X25: the duplicate check and the save of [POST /plans] are separate
    store operations: the handler is its check followed by its save, and
    when two creates of the same owner and code both run their check
    before either saves, both are answered CREATED and the collection ends
    with two plans of the same (owner, code). *)
Theorem postPlans_interleaved_duplicates
    (first second : Request) (w : World) (value1 value2 : obj) (owner : ObjectId) :
  joi.validate planSchema (createParameters (body first)) = inr value1 ->
  joi.validate planSchema (createParameters (body second)) = inr value2 ->
  newObjectId (user_identifier first) = Some owner ->
  newObjectId (user_identifier second) = Some owner ->
  prop value1 "code" = prop value2 "code" ->
  find (matches (duplicateFilter owner value1)) (plans w) = None ->
  (forall (r : Request) (w0 : World),
     exec (postPlans r) w0 = exec (bind (postPlansCheck r) postPlansSave) w0) /\
  exists (pending1 pending2 : obj * ObjectId) (saved1 saved2 : obj)
         (w1 w2 w3 w4 : World),
    postPlansCheck first w = (inr pending1, w1) /\
    postPlansCheck second w1 = (inr pending2, w2) /\
    exec (postPlansSave pending1) w2 =
      (Responded httpStatus.CREATED (JsonObject (toExternal saved1)), w3) /\
    exec (postPlansSave pending2) w3 =
      (Responded httpStatus.CREATED (JsonObject (toExternal saved2)), w4) /\
    plans w4 = plans w ++ [saved1; saved2] /\
    planKey saved1 = planKey saved2 /\
    ~ uniqueCodes (plans w4).
Proof.
  intros Hv1 Hv2 Ho1 Ho2 Hcode Hfresh. split; [exact postPlans_split|].
  assert (duplicateFilter owner value2 = duplicateFilter owner value1) as Hfilter.
  { unfold duplicateFilter. rewrite Hcode. reflexivity. }
  pose proof (postPlansCheck_run first w value1 owner Hv1 Ho1) as Hc1.
  rewrite Hfresh in Hc1.
  set (w1 := logged (PlanFindOne (duplicateFilter owner value1)) w) in *.
  pose proof (postPlansCheck_run second w1 value2 owner Hv2 Ho2) as Hc2.
  rewrite Hfilter in Hc2. change (plans w1) with (plans w) in Hc2.
  rewrite Hfresh in Hc2.
  set (w2 := logged (PlanFindOne (duplicateFilter owner value1)) w1) in *.
  pose proof (postPlansSave_run value1 owner w2) as Hs1.
  set (saved1 := savedPlan w2 owner value1) in *.
  set (w3 := mkWorld (plans w2 ++ [saved1]) (users w2) (userStoreFault w2)
               (storeLog w2 ++ [PlanSave saved1]) (S (clockReads w2))
               (S (idsIssued w2))) in *.
  pose proof (postPlansSave_run value2 owner w3) as Hs2.
  set (saved2 := savedPlan w3 owner value2) in *.
  assert (planKey saved1 = planKey saved2) as Hkey.
  { unfold planKey, saved1, saved2.
    destruct (savedPlan_props w2 owner value1) as (-> & -> & _).
    destruct (savedPlan_props w3 owner value2) as (-> & -> & _).
    rewrite Hcode. reflexivity. }
  eexists (value1, owner), (value2, owner), saved1, saved2, w1, w2, w3, _.
  split; [exact Hc1|]. split; [exact Hc2|]. split; [exact Hs1|]. split; [exact Hs2|].
  assert (plans (mkWorld (plans w3 ++ [saved2]) (users w3) (userStoreFault w3)
                   (storeLog w3 ++ [PlanSave saved2]) (S (clockReads w3))
                   (S (idsIssued w3))) = plans w ++ [saved1; saved2]) as Hplans.
  { change (plans w ++ [saved1; saved2]) with (plans w ++ ([saved1] ++ [saved2])).
    rewrite app_assoc. reflexivity. }
  split; [exact Hplans|]. split; [exact Hkey|].
  rewrite Hplans. unfold uniqueCodes. rewrite map_app. cbn [map].
  rewrite Hkey. apply NoDup_twice.
Qed.

(** X14: a plan that was just created can be fetched by its identifier:
    [GET /plans/:identifier] with the generated identifier and the same
    caller answers OK with the representation the 201 response carried. *)
Theorem postPlans_then_getPlan
    (request : Request) (w : World) (value : obj) (owner : ObjectId) :
  joi.validate planSchema (createParameters (body request)) = inr value ->
  newObjectId (user_identifier request) = Some owner ->
  find (matches (duplicateFilter owner value)) (plans w) = None ->
  wellFormed (toHexString (generateId (idsIssued w))) = true ->
  (forall p, In p (plans w) -> prop p "_id" <> JId (generateId (idsIssued w))) ->
  let created := exec (postPlans request) w in
  let fetched :=
    exec (getPlan (mkRequest ∅ ∅ (toHexString (generateId (idsIssued w)))
                     (user_identifier request))) created.2 in
  exists saved : obj,
    created.1 = Responded httpStatus.CREATED (JsonObject (toExternal saved)) /\
    fetched.1 = Responded httpStatus.OK (JsonObject (toExternal saved)).
Proof.
  intros Hv Ho Hfresh Hwf Hnew created fetched.
  exists (savedPlan w owner value). subst fetched created.
  rewrite (postPlans_validated request w value owner Hv Ho), Hfresh.
  split; [reflexivity|].
  destruct (savedPlan_props w owner value) as (_ & Hown & Hid).
  erewrite getPlan_lookup;
    [|exact (wellFormed_pattern _ Hwf)|exact Ho|exact (wellFormed_objectId _ Hwf)].
  cbn [fst snd plans]. rewrite oid_eta.
  rewrite find_app_none.
  - cbn [find]. rewrite (proj2 (matches_two _ _ _ _ _) (conj Hid Hown)). reflexivity.
  - intros p Hp. apply not_true_is_false. rewrite matches_two.
    intros [Hpid _]. exact (Hnew p Hp Hpid).
Qed.

(** X15: the same create request sent again after it succeeded is
    answered BAD_REQUEST with the duplicate-code message and adds no
    plan. *)
Theorem postPlans_twice_rejected
    (request : Request) (w : World) (value : obj) (owner : ObjectId) :
  joi.validate planSchema (createParameters (body request)) = inr value ->
  newObjectId (user_identifier request) = Some owner ->
  find (matches (duplicateFilter owner value)) (plans w) = None ->
  let first := exec (postPlans request) w in
  let second := exec (postPlans request) first.2 in
  (exists saved, first.1 = Responded httpStatus.CREATED (JsonObject (toExternal saved))) /\
  second.1 =
    Responded httpStatus.BAD_REQUEST
      (JsonMessage (Text "A plan with the specified code already exists.")) /\
  plans second.2 = plans first.2 /\
  length (plans first.2) = S (length (plans w)).
Proof.
  intros Hv Ho Hfresh first second. subst second first.
  rewrite (postPlans_validated request w value owner Hv Ho), Hfresh. simpl.
  split; [eauto|].
  rewrite (postPlans_validated request _ value owner Hv Ho). simpl.
  destruct (savedPlan_props w owner value) as (Hcode & Hown & _).
  destruct (find_some_of (matches (duplicateFilter owner value))
              (plans w ++ [savedPlan w owner value]) (savedPlan w owner value))
    as [found Hfound].
  { apply in_or_app. right. left. reflexivity. }
  { apply matches_two. split; assumption. }
  rewrite Hfound. simpl. split; [reflexivity|]. split; [reflexivity|].
  rewrite length_app. simpl. lia.
Qed.

(** X16: codes are unique per owner only: a code that plans of other
    owners use is accepted for the caller. *)
Theorem postPlans_code_of_other_owner_accepted
    (request : Request) (w : World) (value : obj) (owner : ObjectId) :
  joi.validate planSchema (createParameters (body request)) = inr value ->
  newObjectId (user_identifier request) = Some owner ->
  (forall p, In p (plans w) ->
     prop p "code" = prop value "code" -> prop p "ownerId" <> JId owner) ->
  (exec (postPlans request) w).1 =
    Responded httpStatus.CREATED (JsonObject (toExternal (savedPlan w owner value))).
Proof.
  intros Hv Ho Hothers.
  rewrite (postPlans_validated request w value owner Hv Ho).
  rewrite find_none_of; [reflexivity|].
  intros p Hp. apply not_true_is_false. intros Hm.
  apply matches_two in Hm. destruct Hm as [Hcode Hown].
  exact (Hothers p Hp Hcode Hown).
Qed.

End CreateCompositionProperties.

Section ListRunProperties.
Context `{Platform}.

Lemma listParameters_prop (q : obj) :
  prop (listParameters q) "page" = prop q "page" /\
  prop (listParameters q) "limit" = prop q "limit" /\
  prop (listParameters q) "dateRange" = prop q "date_range" /\
  prop (listParameters q) "startDate" = prop q "start_date" /\
  prop (listParameters q) "endDate" = prop q "end_date" /\
  prop (listParameters q) "search" = prop q "search".
Proof.
  unfold listParameters, prop at 1 3 5 7 9 11.
  cbn [list_to_map foldr uncurry fst snd].
  repeat split;
    repeat (rewrite lookup_insert_ne by done); rewrite lookup_insert_eq; reflexivity.
Qed.

Lemma getPlans_invalid (request : Request) (w : World) (e : joi.Error) :
  joi.validate filterSchema (listParameters (query request)) = inl e ->
  exec (getPlans request) w =
    (Responded httpStatus.BAD_REQUEST (JsonMessage (ErrorMessage e)), w).
Proof.
  intros Hv. unfold exec, getPlans. rewrite Hv. reflexivity.
Qed.

(** The dates are resolved without touching the collections or the log,
    unless the assertion ends the handler. *)
Lemma resolveDates_outcomes (value : obj) (w : World) :
  (exists dates w1,
     resolveDates value w = (inr dates, w1) /\
     plans w1 = plans w /\ users w1 = users w /\ storeLog w1 = storeLog w) \/
  (exists message, resolveDates value w = (inl (Threw (AssertionError message)), w)).
Proof.
  unfold resolveDates.
  destruct (negb (bool_decide (prop value "dateRange" = JStr "custom")) &&
            negb (bool_decide (prop value "dateRange" = JStr "all_time"))).
  - unfold bind, assert. destruct (truthy (months_at (prop value "dateRange"))).
    + left. eexists _, _. simpl. split; [reflexivity|]. auto.
    + right. eexists. reflexivity.
  - left. eexists _, _. split; [reflexivity|]. auto.
Qed.

Lemma listValidated_run (request : Request) (value : obj) (w w1 : World)
    (dates : jsval * jsval) (owner : ObjectId) :
  resolveDates value w = (inr dates, w1) ->
  newObjectId (user_identifier request) = Some owner ->
  let f := buildFilters owner value dates.1 dates.2 in
  castFilter f = None ->
  exists result : obj,
    exec (listValidated request value) w =
      (Responded httpStatus.OK
         (JsonPage result
            (map toExternal (pageDocs f (limitOption value) (pageOption value) w1))),
       logged (PlanPaginate f (limitOption value) (pageOption value)) w1).
Proof.
  intros Hd Ho f Hcast.
  unfold exec, listValidated, bind, ObjectId_, Plan_paginate. rewrite Hd, Ho.
  cbv beta iota zeta delta [ret]. fold f. rewrite Hcast. eexists. reflexivity.
Qed.

(** Every way [GET /plans] has to answer after validation. *)
Lemma listValidated_answer (request : Request) (value : obj) (w w' : World)
    (status : Z) (b : Body) :
  exec (listValidated request value) w = (Responded status b, w') ->
  exists (dates : jsval * jsval) (w1 : World) (owner : ObjectId) (result : obj),
    resolveDates value w = (inr dates, w1) /\
    plans w1 = plans w /\
    newObjectId (user_identifier request) = Some owner /\
    status = httpStatus.OK /\
    b = JsonPage result
          (map toExternal
             (pageDocs (buildFilters owner value dates.1 dates.2)
                (limitOption value) (pageOption value) w1)).
Proof.
  intros Hrun.
  destruct (resolveDates_outcomes value w)
    as [(dates & w1 & Hd & Hplans & _ & _)|(message & Hd)].
  2:{ rewrite (listValidated_stopped request value w w _ Hd) in Hrun. discriminate. }
  destruct (newObjectId (user_identifier request)) as [owner|] eqn:Ho.
  2:{ rewrite (listValidated_bad_caller request value w w1 dates Hd Ho) in Hrun.
      discriminate. }
  destruct (castFilter (buildFilters owner value dates.1 dates.2)) as [e|] eqn:Hcast.
  - pose proof (listValidated_query request value w w1 dates owner Hd Ho) as Hq.
    cbv zeta in Hq. rewrite Hcast in Hq. rewrite Hq in Hrun. discriminate.
  - destruct (listValidated_run request value w w1 dates owner Hd Ho Hcast)
      as [result Hq].
    rewrite Hq in Hrun. injection Hrun as Hs Hb _.
    exists dates, w1, owner, result. auto.
Qed.

Lemma pageDocs_found (f : Filter) (limit page : option number) (w : World) (d : obj) :
  In d (pageDocs f limit page w) -> In d (plans w) /\ matches f d = true.
Proof.
  unfold pageDocs. intros Hd. apply list_elem_of_In in Hd.
  apply subseteq_take, subseteq_drop, list_elem_of_filter in Hd.
  destruct Hd as [Hm Hin]. split; [apply list_elem_of_In; exact Hin|exact Hm].
Qed.

(** X17: every record of a [GET /plans] answer is the external
    representation of a plan of the collection that belongs to the caller:
    the list never shows a plan of somebody else. *)
Theorem getPlans_records_belong_to_caller
    (request : Request) (w w' : World) (result : obj) (records : list obj) :
  exec (getPlans request) w =
    (Responded httpStatus.OK (JsonPage result records), w') ->
  exists owner : ObjectId,
    newObjectId (user_identifier request) = Some owner /\
    forall r, In r records ->
      exists plan, In plan (plans w) /\ r = toExternal plan /\
                   prop plan "ownerId" = JId owner /\
                   prop r "ownerId" = JId owner.
Proof.
  intros Hrun.
  destruct (joi.validate filterSchema (listParameters (query request)))
    as [e|value] eqn:Hv.
  { rewrite (getPlans_invalid request w e Hv) in Hrun. discriminate. }
  rewrite (getPlans_validated request value w Hv) in Hrun.
  destruct (listValidated_answer request value w w' _ _ Hrun)
    as (dates & w1 & owner & result' & Hd & Hplans & Ho & _ & Hb).
  exists owner. split; [exact Ho|].
  injection Hb as _ Hrecords. subst records.
  intros r Hr. apply in_map_iff in Hr. destruct Hr as (plan & <- & Hplan).
  apply pageDocs_found in Hplan. destruct Hplan as [Hin Hm].
  rewrite buildFilters_shape in Hm. unfold matches in Hm. simpl in Hm.
  apply andb_true_iff in Hm. destruct Hm as [Hown _].
  apply bool_decide_eq_true in Hown.
  exists plan. rewrite <- Hplans. split; [exact Hin|]. split; [reflexivity|].
  split; [exact Hown|]. rewrite toExternal_ownerId. exact Hown.
Qed.

(** X18: the handlers that read do not write: [GET /plans],
    [GET /plans/:identifier] and the role gate leave the plan and user
    collections as they were. *)
Theorem read_handlers_leave_collections (request : Request) (w : World) :
  (plans (exec (getPlans request) w).2 = plans w /\
   users (exec (getPlans request) w).2 = users w) /\
  (plans (exec (getPlan request) w).2 = plans w /\
   users (exec (getPlan request) w).2 = users w) /\
  (forall role,
     plans (exec (requireRole role request) w).2 = plans w /\
     users (exec (requireRole role request) w).2 = users w).
Proof.
  split; [|split].
  - destruct (joi.validate filterSchema (listParameters (query request)))
      as [e|value] eqn:Hv.
    { rewrite (getPlans_invalid request w e Hv). auto. }
    rewrite (getPlans_validated request value w Hv).
    destruct (resolveDates_outcomes value w)
      as [(dates & w1 & Hd & Hplans & Husers & _)|(message & Hd)].
    2:{ rewrite (listValidated_stopped request value w w _ Hd). auto. }
    destruct (newObjectId (user_identifier request)) as [owner|] eqn:Ho.
    2:{ rewrite (listValidated_bad_caller request value w w1 dates Hd Ho). auto. }
    pose proof (listValidated_query request value w w1 dates owner Hd Ho) as Hq.
    cbv zeta in Hq. destruct (castFilter _).
    + rewrite Hq. auto.
    + destruct Hq as (result & records & Hq). rewrite Hq. auto.
  - destruct (identifierPattern (params_identifier request)) eqn:Hp.
    2:{ rewrite (getPlan_rejects_unmatched request w Hp). auto. }
    destruct (newObjectId (user_identifier request)) as [owner|] eqn:Hc.
    2:{ rewrite (getPlan_bad_caller request w Hp Hc). auto. }
    destruct (newObjectId (params_identifier request)) as [id|] eqn:Hi.
    2:{ rewrite (getPlan_bad_identifier request w Hp Hi). auto. }
    rewrite (getPlan_lookup request w owner id Hp Hc Hi). auto.
  - intros role. rewrite requireRole_run. auto.
Qed.

End ListRunProperties.

Section FilterSchemaProperties.
Context `{Platform}.

(** How a value gets through a [joi.string().valid(...)] schema without
    rules: absent and replaced by the default, or one of the valid values,
    unchanged. *)
Lemma validateKey_valid (key : string) (s : joi.Schema) (parent : obj) (raw v : jsval) :
  joi.kind s = joi.KString -> joi.rules s = [] -> joi.emptyString s = false ->
  joi.only s = true ->
  joi.validateKey key s parent raw = inr v ->
  (raw = JUndefined /\ v = joi.finalizeAbsent s) \/ (v = raw /\ In raw (joi.allowed s)).
Proof.
  intros Hkind Hrules Hempty Honly. unfold joi.validateKey.
  assert (joi.coerce s raw = inr raw) as ->.
  { unfold joi.coerce, joi.hasRule. rewrite Hkind, Hrules. destruct raw; reflexivity. }
  rewrite Hempty, Honly. cbv zeta. simpl andb. cbv iota.
  destruct (bool_decide (raw = JUndefined)) eqn:Hundef.
  - apply bool_decide_eq_true in Hundef.
    destruct (joi.presence s parent); [discriminate|]. intros [= <-]. left. auto.
  - destruct (bool_decide (raw ∈ joi.allowed s)) eqn:Hallowed; [|discriminate].
    apply bool_decide_eq_true, list_elem_of_In in Hallowed.
    intros [= <-]. right. auto.
Qed.

(** How a value gets through a [joi.number()] schema: absent and replaced
    by the default, or a number that passes the base check and the rules. *)
Lemma validateKey_number (key : string) (s : joi.Schema) (parent : obj) (raw v : jsval) :
  joi.kind s = joi.KNumber -> joi.allowed s = [] -> joi.only s = false ->
  joi.emptyString s = false ->
  joi.validateKey key s parent raw = inr v ->
  (v = joi.finalizeAbsent s /\ joi.presence s parent = false) \/
  exists n, v = JNum n /\ number_check n = None /\
            joi.checkRules (joi.rules s) (JNum n) = None.
Proof.
  intros Hkind Hallowed Honly Hempty. unfold joi.validateKey.
  destruct (joi.coerce s raw) as [e|v0]; [discriminate|].
  rewrite Hempty, Hallowed, Honly. cbv zeta. simpl andb. cbv iota.
  destruct (bool_decide (v0 = JUndefined)).
  - destruct (joi.presence s parent); [discriminate|]. intros [= <-]. left. auto.
  - rewrite bool_decide_eq_false_2 by (intros Hin; inversion Hin).
    unfold joi.checkBase. rewrite Hkind.
    destruct v0 as [| | |n| | | |]; try discriminate.
    destruct (number_check n) eqn:Hcheck; [discriminate|].
    destruct (joi.checkRules (joi.rules s) (JNum n)) eqn:Hrules; [discriminate|].
    intros [= <-]. right. eauto.
Qed.

(** X19: in a validated list request the parameters the query leaves out
    have their defaults: page 0, 20 records a page, all time, no search; a
    search text that is blank counts as none. *)
Theorem filterSchema_defaults (q value : obj) :
  joi.validate filterSchema (listParameters q) = inr value ->
  (prop q "page" = JUndefined -> prop value "page" = num 0) /\
  (prop q "limit" = JUndefined -> prop value "limit" = num 20) /\
  (prop q "date_range" = JUndefined -> prop value "dateRange" = JStr "all_time") /\
  (prop q "search" = JUndefined -> prop value "search" = JNull) /\
  (forall t, prop q "search" = JStr t -> Js.trim t = "" -> prop value "search" = JNull).
Proof.
  intros Hv.
  destruct (listParameters_prop q) as (Hpage & Hlimit & Hrange & _ & _ & Hsearch).
  assert (forall key s,
            In (key, s) filterSchema ->
            joi.isRequired s = false -> joi.conditions s = [] ->
            prop (listParameters q) key = JUndefined ->
            prop value key = joi.finalizeAbsent s) as Hdefault.
  { intros key s Hin Hreq Hcond Hb.
    destruct (validate_child filterSchema _ value key s filterSchema_keys Hv Hin)
      as [parent Hkey].
    rewrite Hb, (validateKey_absent key s parent Hreq Hcond) in Hkey. congruence. }
  split; [|split; [|split; [|split]]].
  - intros Hq. apply (Hdefault "page" (joi.number_ |> joi.integer |> joi.default_ (num 0)));
      try reflexivity; [simpl; tauto|congruence].
  - intros Hq.
    apply (Hdefault "limit" (joi.number_ |> joi.integer |> joi.min 10
                               |> joi.max PAGINATE_MAX_LIMIT |> joi.default_ (num 20)));
      try reflexivity; [simpl; tauto|congruence].
  - intros Hq.
    apply (Hdefault "dateRange" (joi.string_ |> joi.valid dateRanges
                                   |> joi.default_ (JStr "all_time")));
      try reflexivity; [simpl; tauto|congruence].
  - intros Hq.
    apply (Hdefault "search" (joi.string_ |> joi.trim |> joi.allow JNull |> joi.empty
                                |> joi.default_ JNull));
      try reflexivity; [simpl; tauto|congruence].
  - intros t Hq Hblank.
    destruct (validate_child filterSchema _ value "search"
                (joi.string_ |> joi.trim |> joi.allow JNull |> joi.empty
                   |> joi.default_ JNull)
                filterSchema_keys Hv) as [parent Hkey]; [simpl; tauto|].
    rewrite Hsearch, Hq in Hkey.
    apply validateKey_string in Hkey; [|reflexivity|reflexivity].
    change (converted _ (JStr t)) with (JStr (Js.trim t)) in Hkey.
    rewrite Hblank in Hkey.
    destruct Hkey as [(Hvalue & _)|(_ & Hnot & _)]; [exact Hvalue|].
    exfalso. apply Hnot. split; reflexivity.
Qed.

(** X20: a list request whose [date_range] is present and is none of the
    eight tags is answered BAD_REQUEST with a validation message; nothing
    is asked of the store. *)
Theorem getPlans_unknown_range_rejected (request : Request) (w : World) :
  prop (query request) "date_range" <> JUndefined ->
  ~ In (prop (query request) "date_range") dateRanges ->
  exists e : joi.Error,
    exec (getPlans request) w =
      (Responded httpStatus.BAD_REQUEST (JsonMessage (ErrorMessage e)), w).
Proof.
  intros Hpresent Hnot.
  assert (exists e, joi.validate filterSchema (listParameters (query request)) = inl e)
    as [e He]; [|exists e; exact (getPlans_invalid request w e He)].
  apply (validate_rejects filterSchema _ "dateRange"
           (joi.string_ |> joi.valid dateRanges |> joi.default_ (JStr "all_time"))
           filterSchema_keys); [simpl; tauto|].
  intros parent v Hkey.
  destruct (listParameters_prop (query request)) as (_ & _ & Hrange & _).
  rewrite Hrange in Hkey.
  apply validateKey_valid in Hkey; try reflexivity.
  destruct Hkey as [[Hundef _]|[_ Hin]]; [exact (Hpresent Hundef)|exact (Hnot Hin)].
Qed.

(** X21: the page of a validated list request is an integer and its limit
    an integer between 10 and the configured maximum, when they are not
    the defaults 0 and 20. *)
Theorem filterSchema_page_and_limit (q value : obj) :
  joi.validate filterSchema (listParameters q) = inr value ->
  (prop value "page" = num 0 \/
   exists n, prop value "page" = JNum n /\ number_is_integer n = true) /\
  (prop value "limit" = num 20 \/
   exists n, prop value "limit" = JNum n /\ number_is_integer n = true /\
             number_leb (number_of_Z 10) n = true /\
             number_leb n (number_of_Z PAGINATE_MAX_LIMIT) = true).
Proof.
  intros Hv. split.
  - destruct (validate_child filterSchema _ value "page"
                (joi.number_ |> joi.integer |> joi.default_ (num 0))
                filterSchema_keys Hv) as [parent Hkey]; [simpl; tauto|].
    apply validateKey_number in Hkey; try reflexivity.
    destruct Hkey as [[Hdefault _]|(n & Hn & _ & Hrules)]; [left; exact Hdefault|].
    right. exists n. split; [exact Hn|].
    change (joi.rules _) with [joi.Integer] in Hrules. simpl in Hrules.
    destruct (number_is_integer n); [reflexivity|discriminate].
  - destruct (validate_child filterSchema _ value "limit"
                (joi.number_ |> joi.integer |> joi.min 10
                   |> joi.max PAGINATE_MAX_LIMIT |> joi.default_ (num 20))
                filterSchema_keys Hv) as [parent Hkey]; [simpl; tauto|].
    apply validateKey_number in Hkey; try reflexivity.
    destruct Hkey as [[Hdefault _]|(n & Hn & _ & Hrules)]; [left; exact Hdefault|].
    right. exists n. split; [exact Hn|].
    change (joi.rules _)
      with [joi.Integer; joi.Min 10; joi.Max PAGINATE_MAX_LIMIT] in Hrules.
    simpl in Hrules.
    destruct (number_is_integer n); [|discriminate].
    destruct (number_leb (number_of_Z 10) n); [|discriminate].
    destruct (number_leb n (number_of_Z PAGINATE_MAX_LIMIT)); [|discriminate].
    auto.
Qed.

End FilterSchemaProperties.

Section ListSelectionProperties.
Context `{Platform}.

Lemma validateKey_date_text (key : string) (s : joi.Schema) (parent : obj)
    (text : string) (ms : Z) :
  joi.kind s = joi.KDate -> joi.allowed s = [] -> joi.only s = false ->
  joi.emptyString s = false -> joi.rules s = [] ->
  date_of_string text = Some ms ->
  joi.validateKey key s parent (JStr text) = inr (JDate (Instant ms)).
Proof.
  intros Hkind Hallowed Honly Hempty Hrules Hdate.
  unfold joi.validateKey, joi.coerce, joi.checkBase.
  rewrite Hkind, Hdate, Hempty, Hallowed, Honly, Hrules. cbv zeta. simpl andb. cbv iota.
  rewrite bool_decide_eq_false_2 by discriminate.
  rewrite bool_decide_eq_false_2 by (intros Hin; inversion Hin).
  reflexivity.
Qed.

Lemma matches_cons (cl : Clause) (f : Filter) (d : obj) :
  matches (cl :: f) d = true <-> matches [cl] d = true /\ matches f d = true.
Proof.
  unfold matches. simpl. rewrite !andb_true_iff. tauto.
Qed.

(** X22: a list request for the [custom] range with both dates selects the
    caller's plans created between the start of the first day and the end
    of the last, both included; the clock is not read. *)
Theorem getPlans_custom_range
    (request : Request) (value : obj) (w : World) (owner : ObjectId)
    (startText endText : string) (s e : Z) :
  joi.validate filterSchema (listParameters (query request)) = inr value ->
  newObjectId (user_identifier request) = Some owner ->
  prop (query request) "date_range" = JStr "custom" ->
  prop (query request) "start_date" = JStr startText ->
  date_of_string startText = Some s ->
  prop (query request) "end_date" = JStr endText ->
  date_of_string endText = Some e ->
  let f := Field "ownerId" (Equals (JId owner)) ::
           Field "createdAt" (Range (JDate (Instant (startOfDay s)))
                                    (JDate (Instant (endOfDay e)))) ::
           searchClauses value in
  let docs := pageDocs f (limitOption value) (pageOption value) w in
  exists result : obj,
    exec (getPlans request) w =
      (Responded httpStatus.OK (JsonPage result (map toExternal docs)),
       logged (PlanPaginate f (limitOption value) (pageOption value)) w) /\
    forall d, In d docs ->
      prop d "ownerId" = JId owner /\
      exists t, prop d "createdAt" = JDate (Instant t) /\ startOfDay s <= t <= endOfDay e.
Proof.
  intros Hv Ho Hrange Hstart Hs Hend He f docs.
  destruct (listParameters_prop (query request)) as (_ & _ & Pr & Ps & Pe & _).
  assert (prop value "dateRange" = JStr "custom") as Vr.
  { destruct (validate_child filterSchema _ value "dateRange"
                (joi.string_ |> joi.valid dateRanges |> joi.default_ (JStr "all_time"))
                filterSchema_keys Hv) as [parent Hkey]; [simpl; tauto|].
    rewrite Pr, Hrange in Hkey. apply validateKey_valid in Hkey; try reflexivity.
    destruct Hkey as [[Hundef _]|[Hvalue _]]; [discriminate Hundef|exact Hvalue]. }
  assert (prop value "startDate" = JDate (Instant s)) as Vs.
  { destruct (validate_child filterSchema _ value "startDate"
                (joi.date |> joi.when "date_range" (JStr "custom"))
                filterSchema_keys Hv) as [parent Hkey]; [simpl; tauto|].
    rewrite Ps, Hstart in Hkey.
    rewrite (validateKey_date_text _ _ parent startText s) in Hkey by (reflexivity || exact Hs).
    congruence. }
  assert (prop value "endDate" = JDate (Instant e)) as Ve.
  { destruct (validate_child filterSchema _ value "endDate"
                (joi.date |> joi.when "date_range" (JStr "custom"))
                filterSchema_keys Hv) as [parent Hkey]; [simpl; tauto|].
    rewrite Pe, Hend in Hkey.
    rewrite (validateKey_date_text _ _ parent endText e) in Hkey by (reflexivity || exact He).
    congruence. }
  assert (buildFilters owner value (prop value "startDate") (prop value "endDate") = f)
    as Hf.
  { rewrite buildFilters_shape, Vr, Vs, Ve.
    rewrite bool_decide_eq_false_2 by discriminate. reflexivity. }
  assert (castFilter f = None) as Hcast.
  { unfold f. simpl. apply searchClauses_cast. }
  destruct (listValidated_run request value w w _ owner
              (resolveDates_fixed value w (or_introl Vr)) Ho) as [result Hrun].
  { cbn [fst snd]. rewrite Hf. exact Hcast. }
  cbn [fst snd] in Hrun. rewrite Hf in Hrun.
  exists result. split.
  - rewrite (getPlans_validated request value w Hv). exact Hrun.
  - intros d Hd. apply pageDocs_found in Hd. destruct Hd as [_ Hm].
    unfold f in Hm. apply matches_cons in Hm. destruct Hm as [Hown Hm].
    apply matches_cons in Hm. destruct Hm as [Hcreated _].
    split.
    + unfold matches in Hown. simpl in Hown. rewrite andb_true_r in Hown.
      apply bool_decide_eq_true in Hown. exact Hown.
    + apply range_closed. unfold matches in Hcreated. cbn [forallb] in Hcreated.
      rewrite andb_true_r in Hcreated. exact Hcreated.
Qed.

(** X23: with a search text that is not blank, every record of the answer
    is a plan whose code or name contains the trimmed text, whatever the
    case of the letters; the text is matched as it is, not as a pattern. *)
Theorem getPlans_search_matches
    (request : Request) (w w' : World) (result : obj) (records : list obj)
    (text : string) :
  prop (query request) "search" = JStr text ->
  Js.trim text <> "" ->
  exec (getPlans request) w =
    (Responded httpStatus.OK (JsonPage result records), w') ->
  forall r, In r records ->
    exists plan, In plan (plans w) /\ r = toExternal plan /\
      ((exists c, prop plan "code" = JStr c /\ Js.contains_ci (Js.trim text) c = true) \/
       (exists n, prop plan "name" = JStr n /\ Js.contains_ci (Js.trim text) n = true)).
Proof.
  intros Hq Hne Hrun.
  destruct (joi.validate filterSchema (listParameters (query request)))
    as [e|value] eqn:Hv.
  { rewrite (getPlans_invalid request w e Hv) in Hrun. discriminate. }
  assert (prop value "search" = JStr (Js.trim text)) as Vs.
  { destruct (listParameters_prop (query request)) as (_ & _ & _ & _ & _ & Ps).
    destruct (validate_child filterSchema _ value "search"
                (joi.string_ |> joi.trim |> joi.allow JNull |> joi.empty
                   |> joi.default_ JNull)
                filterSchema_keys Hv) as [parent Hkey]; [simpl; tauto|].
    rewrite Ps, Hq in Hkey.
    apply validateKey_string in Hkey; [|reflexivity|reflexivity].
    change (converted _ (JStr text)) with (JStr (Js.trim text)) in Hkey.
    destruct Hkey as [(_ & _ & [Hundef|[_ Hblank]])|(Hvalue & _)].
    - discriminate Hundef.
    - injection Hblank as Hblank. contradiction.
    - exact Hvalue. }
  assert (searchClauses value =
            [Or [("code", RegExp_escaped (Js.trim text));
                 ("name", RegExp_escaped (Js.trim text))]]) as Hclauses.
  { unfold searchClauses. rewrite Vs. unfold truthy.
    rewrite bool_decide_eq_false_2 by exact Hne. reflexivity. }
  rewrite (getPlans_validated request value w Hv) in Hrun.
  destruct (listValidated_answer request value w w' _ _ Hrun)
    as (dates & w1 & owner & result' & Hd & Hplans & Ho & _ & Hb).
  injection Hb as _ Hrecords. subst records.
  intros r Hr. apply in_map_iff in Hr. destruct Hr as (plan & <- & Hplan).
  apply pageDocs_found in Hplan. destruct Hplan as [Hin Hm].
  exists plan. rewrite <- Hplans. split; [exact Hin|]. split; [reflexivity|].
  rewrite buildFilters_shape, Hclauses in Hm.
  apply matches_cons in Hm. destruct Hm as [_ Hm].
  unfold matches in Hm. rewrite forallb_app in Hm.
  apply andb_true_iff in Hm. destruct Hm as [_ Hm].
  cbn [forallb existsb fst snd] in Hm. rewrite andb_true_r, orb_false_r in Hm.
  apply orb_true_iff in Hm. unfold RegExp_escaped, satisfies in Hm.
  destruct Hm as [Hm|Hm]; [left|right].
  - destruct (prop plan "code") as [| | | |c| | |]; try discriminate Hm. eauto.
  - destruct (prop plan "name") as [| | | |n| | |]; try discriminate Hm. eauto.
Qed.

(** X24: the numbers of a validated create request: the billing period,
    the number of cycles and the trial period are integers, the price and
    the setup fee are numbers that pass the base check. *)
Theorem planSchema_numbers (b value : obj) :
  joi.validate planSchema (createParameters b) = inr value ->
  (exists n, prop value "billingCyclePeriod" = JNum n /\ number_is_integer n = true) /\
  (exists n, prop value "totalBillingCycles" = JNum n /\ number_is_integer n = true) /\
  (exists n, prop value "pricePerBillingCycle" = JNum n /\ number_check n = None) /\
  (prop value "trialPeriod" = num 0 \/
   exists n, prop value "trialPeriod" = JNum n /\ number_is_integer n = true) /\
  (prop value "setupFee" = num 0 \/
   exists n, prop value "setupFee" = JNum n /\ number_check n = None).
Proof.
  intros Hv.
  assert (forall key s,
            In (key, s) planSchema -> joi.kind s = joi.KNumber ->
            joi.allowed s = [] -> joi.only s = false -> joi.emptyString s = false ->
            (prop value key = joi.finalizeAbsent s /\ joi.isRequired s = false) \/
            exists n, prop value key = JNum n /\ number_check n = None /\
                      joi.checkRules (joi.rules s) (JNum n) = None) as Hnumber.
  { intros key s Hin Hkind Hallowed Honly Hempty.
    destruct (validate_child planSchema _ value key s planSchema_keys Hv Hin)
      as [parent Hkey].
    apply validateKey_number in Hkey; try assumption.
    destruct Hkey as [[Hdefault Hpresence]|Hn]; [left|right; exact Hn].
    split; [exact Hdefault|]. unfold joi.presence in Hpresence.
    apply orb_false_iff in Hpresence. tauto. }
  repeat split.
  - destruct (Hnumber "billingCyclePeriod" (joi.number_ |> joi.integer |> joi.required))
      as [[_ Hreq]|(n & Hn & _ & Hrules)]; try reflexivity; [simpl; tauto|discriminate Hreq|].
    exists n. split; [exact Hn|]. simpl in Hrules.
    destruct (number_is_integer n); [reflexivity|discriminate].
  - destruct (Hnumber "totalBillingCycles" (joi.number_ |> joi.integer |> joi.required))
      as [[_ Hreq]|(n & Hn & _ & Hrules)]; try reflexivity; [simpl; tauto|discriminate Hreq|].
    exists n. split; [exact Hn|]. simpl in Hrules.
    destruct (number_is_integer n); [reflexivity|discriminate].
  - destruct (Hnumber "pricePerBillingCycle" (joi.number_ |> joi.required))
      as [[_ Hreq]|(n & Hn & Hcheck & _)]; try reflexivity; [simpl; tauto|discriminate Hreq|].
    eauto.
  - destruct (Hnumber "trialPeriod" (joi.number_ |> joi.integer |> joi.default_ (num 0)))
      as [[Hdefault _]|(n & Hn & _ & Hrules)]; try reflexivity; [simpl; tauto|left; exact Hdefault|].
    right. exists n. split; [exact Hn|]. simpl in Hrules.
    destruct (number_is_integer n); [reflexivity|discriminate].
  - destruct (Hnumber "setupFee" (joi.number_ |> joi.default_ (num 0)))
      as [[Hdefault _]|(n & Hn & Hcheck & _)]; try reflexivity; [simpl; tauto|left; exact Hdefault|].
    right. eauto.
Qed.

End ListSelectionProperties.

(** ** The further properties on concrete requests *)

Section FurtherWitnesses.
Local Existing Instance Reference.platform.

Lemma blankBody_validates :
  joi.validate planSchema (createParameters Scenario.blankBody) = inr Example.starterValue.
Proof. exact eq_refl. Qed.

Lemma plainRequest_validates :
  joi.validate filterSchema (listParameters (query Scenario.plainRequest)) =
  inr Scenario.plainValue.
Proof. exact eq_refl. Qed.

Lemma customRequest_validates :
  joi.validate filterSchema (listParameters (query Scenario.customRequest)) =
  inr Scenario.customDatesValue.
Proof. exact eq_refl. Qed.

Lemma plain_answer :
  exec (getPlans Scenario.plainRequest) Example.ownWorld =
    (Responded httpStatus.OK
       (JsonPage (Scenario.page (exec (getPlans Scenario.plainRequest) Example.ownWorld).1).1
                 [toExternal Example.ownPlan]),
     (exec (getPlans Scenario.plainRequest) Example.ownWorld).2).
Proof. exact eq_refl. Qed.

Lemma search_answer :
  exec (getPlans Scenario.searchRequest) Example.ownWorld =
    (Responded httpStatus.OK
       (JsonPage (Scenario.page (exec (getPlans Scenario.searchRequest) Example.ownWorld).1).1
                 [toExternal Example.ownPlan]),
     (exec (getPlans Scenario.searchRequest) Example.ownWorld).2).
Proof. exact eq_refl. Qed.

Lemma requireRole_forwards_only_role_witness :
  exists (o : ObjectId) (user : obj),
    newObjectId anyCaller = Some o /\
    In user (users Example.memberWorld) /\
    prop user "_id" = JId o /\
    prop user "role" = JStr "member".
Proof.
  exact (requireRole_forwards_only_role "member" Example.lookupRequest
           Example.memberWorld (logged (UserFindById anyCaller) Example.memberWorld)
           eq_refl).
Defined.

Lemma requireRole_other_role_forbidden_witness :
  exec (requireRole "admin" Example.lookupRequest) Example.memberWorld =
    (Responded httpStatus.FORBIDDEN
       (JsonMessage (Text "The requested resource is forbidden.")),
     logged (UserFindById anyCaller) Example.memberWorld).
Proof.
  apply (requireRole_other_role_forbidden "admin" Example.lookupRequest
           Example.memberWorld Example.owner Example.member);
    [reflexivity|reflexivity|reflexivity|].
  assert (prop Example.member "role" = JStr "member") as -> by reflexivity.
  discriminate.
Defined.

Lemma requireRole_lookup_error_thrown_witness :
  exec (requireRole "admin" Example.lookupRequest) Scenario.faultyWorld =
    (Threw (StoreFailure "connection lost"),
     logged (UserFindById anyCaller) Scenario.faultyWorld).
Proof.
  exact (requireRole_lookup_error_thrown "admin" Example.lookupRequest
           Scenario.faultyWorld _ eq_refl).
Defined.

Lemma getPlan_ok_only_own_plan_witness :
  exists (owner id : ObjectId) (plan : obj),
    newObjectId anyCaller = Some owner /\
    newObjectId Example.planId = Some id /\
    In plan (plans Example.ownWorld) /\
    prop plan "_id" = JId id /\
    prop plan "ownerId" = JId owner /\
    JsonObject (toExternal Example.ownPlan) = JsonObject (toExternal plan).
Proof.
  exact (getPlan_ok_only_own_plan Example.lookupRequest Example.ownWorld
           (logged (PlanFindById (Oid Example.planId) Example.owner) Example.ownWorld)
           (JsonObject (toExternal Example.ownPlan)) eq_refl).
Defined.

Lemma getPlan_own_plan_returned_witness :
  exec (getPlan Example.lookupRequest) Example.ownWorld =
    (Responded httpStatus.OK (JsonObject (toExternal Example.ownPlan)),
     logged (PlanFindById (Oid Example.planId) Example.owner) Example.ownWorld).
Proof.
  apply (getPlan_own_plan_returned Example.lookupRequest Example.ownWorld
           Example.owner Example.ownPlan); try reflexivity.
  - left. reflexivity.
  - intros p [<-|[]] _. reflexivity.
Defined.

Lemma getPlan_malformed_identifier_rejected_witness :
  exec (getPlan Scenario.shortRequest) Example.ownWorld =
    (Responded httpStatus.BAD_REQUEST
       (JsonMessage (Text "The specified plan identifier is invalid.")),
     Example.ownWorld).
Proof.
  apply getPlan_malformed_identifier_rejected. left. simpl. discriminate.
Defined.

Lemma postPlans_required_field_missing_witness :
  exists e : joi.Error,
    exec (postPlans Scenario.namelessRequest) Example.emptyWorld =
      (Responded httpStatus.BAD_REQUEST (JsonMessage (ErrorMessage e)),
       Example.emptyWorld).
Proof.
  apply (postPlans_required_field_missing Scenario.namelessRequest Example.emptyWorld
           "name").
  - simpl. tauto.
  - left. reflexivity.
Defined.

Lemma planSchema_defaults_witness :
  prop Example.starterValue "description" = JNull /\
  prop Example.starterValue "setupFee" = num 0 /\
  prop Example.starterValue "trialPeriod" = num 0 /\
  prop Example.starterValue "trialPeriodUnit" = JStr "days" /\
  prop Example.starterValue "renews" = JBool true.
Proof.
  destruct (planSchema_defaults Example.starter Example.starterValue starter_validates)
    as (Hd & Hs & Ht & Hu & Hr).
  exact (conj (Hd eq_refl) (conj (Hs eq_refl) (conj (Ht eq_refl)
           (conj (Hu eq_refl) (Hr eq_refl))))).
Defined.

Lemma planSchema_code_normalized_witness :
  exists t : string,
    prop Example.starter "code" = JStr t /\
    prop Example.starterValue "code" = JStr (Js.trim (Js.toLowerCase t)) /\
    2 <= Js.len (Js.trim (Js.toLowerCase t)) <= 20 /\
    Js.all isLowerAlnum (Js.trim (Js.toLowerCase t)) = true.
Proof.
  exact (planSchema_code_normalized Example.starter Example.starterValue
           starter_validates).
Defined.

Lemma planSchema_units_witness :
  In (prop Example.starterValue "billingCyclePeriodUnit") [JStr "days"; JStr "months"] /\
  In (prop Example.starterValue "trialPeriodUnit") [JStr "days"; JStr "months"].
Proof.
  exact (planSchema_units Example.starter Example.starterValue starter_validates).
Defined.

Lemma planSchema_description_witness :
  prop Example.starterValue "description" = JNull.
Proof.
  apply (proj1 (planSchema_description Scenario.blankBody Example.starterValue "   "
                  blankBody_validates eq_refl)).
  reflexivity.
Defined.

Lemma planSchema_numbers_witness :
  (exists n, prop Example.starterValue "billingCyclePeriod" = JNum n /\
             number_is_integer n = true) /\
  (exists n, prop Example.starterValue "totalBillingCycles" = JNum n /\
             number_is_integer n = true) /\
  (exists n, prop Example.starterValue "pricePerBillingCycle" = JNum n /\
             number_check n = None) /\
  (prop Example.starterValue "trialPeriod" = num 0 \/
   exists n, prop Example.starterValue "trialPeriod" = JNum n /\
             number_is_integer n = true) /\
  (prop Example.starterValue "setupFee" = num 0 \/
   exists n, prop Example.starterValue "setupFee" = JNum n /\ number_check n = None).
Proof.
  exact (planSchema_numbers Example.starter Example.starterValue starter_validates).
Defined.

Lemma foreignWorld_unique : uniqueCodes (plans Example.foreignWorld).
Proof. unfold uniqueCodes. simpl. constructor; [intros []|constructor]. Qed.

Lemma secondRequest_validates :
  joi.validate planSchema (createParameters (body Scenario.secondRequest)) =
  inr Scenario.secondValue.
Proof. exact eq_refl. Qed.

Lemma postPlans_keeps_codes_unique_witness :
  length (plans (exec (postPlans Example.createRequest) Example.foreignWorld).2) = 2%nat /\
  uniqueCodes (plans (exec (postPlans Example.createRequest) Example.foreignWorld).2).
Proof.
  split; [reflexivity|].
  exact (proj2 (proj2 (postPlans_keeps_codes_unique Example.createRequest
                         Example.foreignWorld foreignWorld_unique))).
Defined.

Lemma postPlans_interleaved_duplicates_witness :
  exists (pending1 pending2 : obj * ObjectId) (saved1 saved2 : obj)
         (w1 w2 w3 w4 : World),
    postPlansCheck Example.createRequest Example.emptyWorld = (inr pending1, w1) /\
    postPlansCheck Scenario.secondRequest w1 = (inr pending2, w2) /\
    exec (postPlansSave pending1) w2 =
      (Responded httpStatus.CREATED (JsonObject (toExternal saved1)), w3) /\
    exec (postPlansSave pending2) w3 =
      (Responded httpStatus.CREATED (JsonObject (toExternal saved2)), w4) /\
    plans w4 = plans Example.emptyWorld ++ [saved1; saved2] /\
    planKey saved1 = planKey saved2 /\
    ~ uniqueCodes (plans w4).
Proof.
  exact (proj2 (postPlans_interleaved_duplicates Example.createRequest
                  Scenario.secondRequest Example.emptyWorld Example.starterValue
                  Scenario.secondValue Example.owner starter_validates
                  secondRequest_validates eq_refl eq_refl eq_refl eq_refl)).
Defined.

Lemma postPlans_then_getPlan_witness :
  exists saved : obj,
    (exec (postPlans Example.createRequest) Example.emptyWorld).1 =
      Responded httpStatus.CREATED (JsonObject (toExternal saved)) /\
    (exec (getPlan (mkRequest ∅ ∅ "000000000000000000000000" anyCaller))
       (exec (postPlans Example.createRequest) Example.emptyWorld).2).1 =
      Responded httpStatus.OK (JsonObject (toExternal saved)).
Proof.
  apply (postPlans_then_getPlan Example.createRequest Example.emptyWorld
           Example.starterValue Example.owner starter_validates);
    try reflexivity.
  intros p [].
Defined.

Lemma postPlans_twice_rejected_witness :
  (exec (postPlans Example.createRequest)
     (exec (postPlans Example.createRequest) Example.emptyWorld).2).1 =
    Responded httpStatus.BAD_REQUEST
      (JsonMessage (Text "A plan with the specified code already exists.")).
Proof.
  exact (proj1 (proj2 (postPlans_twice_rejected Example.createRequest Example.emptyWorld
                         Example.starterValue Example.owner starter_validates
                         eq_refl eq_refl))).
Defined.

Lemma postPlans_code_of_other_owner_accepted_witness :
  (exec (postPlans Example.createRequest) Example.foreignWorld).1 =
    Responded httpStatus.CREATED
      (JsonObject (toExternal (savedPlan Example.foreignWorld Example.owner
                                 Example.starterValue))).
Proof.
  apply (postPlans_code_of_other_owner_accepted Example.createRequest
           Example.foreignWorld Example.starterValue Example.owner starter_validates
           eq_refl).
  intros p [<-|[]] _.
  assert (prop Example.foreignPlan "ownerId" = JId Example.stranger) as -> by reflexivity.
  discriminate.
Defined.

Lemma getPlans_records_belong_to_caller_witness :
  exists owner : ObjectId,
    newObjectId anyCaller = Some owner /\
    forall r, In r [toExternal Example.ownPlan] ->
      exists plan, In plan (plans Example.ownWorld) /\ r = toExternal plan /\
                   prop plan "ownerId" = JId owner /\
                   prop r "ownerId" = JId owner.
Proof.
  exact (getPlans_records_belong_to_caller Scenario.plainRequest Example.ownWorld
           _ _ _ plain_answer).
Defined.

Lemma filterSchema_defaults_witness :
  prop Scenario.plainValue "page" = num 0 /\
  prop Scenario.plainValue "limit" = num 20 /\
  prop Scenario.plainValue "dateRange" = JStr "all_time" /\
  prop Scenario.plainValue "search" = JNull.
Proof.
  destruct (filterSchema_defaults (query Scenario.plainRequest) Scenario.plainValue
              plainRequest_validates) as (Hp & Hl & Hr & Hs & _).
  exact (conj (Hp eq_refl) (conj (Hl eq_refl) (conj (Hr eq_refl) (Hs eq_refl)))).
Defined.

Lemma getPlans_unknown_range_rejected_witness :
  exists e : joi.Error,
    exec (getPlans Scenario.strayRequest) Example.ownWorld =
      (Responded httpStatus.BAD_REQUEST (JsonMessage (ErrorMessage e)),
       Example.ownWorld).
Proof.
  apply getPlans_unknown_range_rejected;
    assert (prop (query Scenario.strayRequest) "date_range" = JStr "last_week")
      as -> by reflexivity.
  - discriminate.
  - simpl. intuition discriminate.
Defined.

Lemma pagedRequest_validates :
  joi.validate filterSchema (listParameters (query Scenario.pagedRequest)) =
  inr Scenario.pagedValue.
Proof. exact eq_refl. Qed.

Lemma pagedValue_given :
  prop Scenario.pagedValue "page" = JNum 2 /\ prop Scenario.pagedValue "limit" = JNum 50.
Proof. split; reflexivity. Qed.

(** The query [page=2&limit=50]: neither is a default, both are integers
    and the limit is between 10 and the maximum. *)
Lemma filterSchema_page_and_limit_witness :
  prop Scenario.pagedValue "page" <> num 0 /\
  prop Scenario.pagedValue "limit" <> num 20 /\
  (exists n, prop Scenario.pagedValue "page" = JNum n /\ number_is_integer n = true) /\
  (exists n, prop Scenario.pagedValue "limit" = JNum n /\ number_is_integer n = true /\
             number_leb (number_of_Z 10) n = true /\
             number_leb n (number_of_Z PAGINATE_MAX_LIMIT) = true).
Proof.
  destruct pagedValue_given as [Hpage Hlimit].
  assert (prop Scenario.pagedValue "page" <> num 0) as Hp
    by (rewrite Hpage; discriminate).
  assert (prop Scenario.pagedValue "limit" <> num 20) as Hl
    by (rewrite Hlimit; discriminate).
  split; [exact Hp|]. split; [exact Hl|].
  destruct (filterSchema_page_and_limit (query Scenario.pagedRequest)
              Scenario.pagedValue pagedRequest_validates) as [[Hp0|Hpn] [Hl0|Hln]];
    try contradiction.
  split; assumption.
Defined.

Lemma customDocs_page : Scenario.customDocs = [Scenario.datedPlan].
Proof. exact eq_refl. Qed.

(** Of the caller's two plans the one created inside the range is
    selected, the one created before it is not. *)
Lemma getPlans_custom_range_witness :
  (Scenario.customDocs = [Scenario.datedPlan] /\
   plans Scenario.datedWorld = [Scenario.oldPlan; Scenario.datedPlan]) /\
  exists result : obj,
    exec (getPlans Scenario.customRequest) Scenario.datedWorld =
      (Responded httpStatus.OK
         (JsonPage result (map toExternal Scenario.customDocs)),
       logged (PlanPaginate Scenario.customFilter
                 (limitOption Scenario.customDatesValue)
                 (pageOption Scenario.customDatesValue)) Scenario.datedWorld) /\
    forall d, In d Scenario.customDocs ->
      prop d "ownerId" = JId Example.owner /\
      exists t, prop d "createdAt" = JDate (Instant t) /\
                startOfDay 1590000000000 <= t <= endOfDay 1600000000000.
Proof.
  split; [split; [exact customDocs_page|reflexivity]|].
  exact (getPlans_custom_range Scenario.customRequest Scenario.customDatesValue
           Scenario.datedWorld Example.owner "1590000000000" "1600000000000"
           1590000000000 1600000000000
           customRequest_validates eq_refl eq_refl eq_refl eq_refl eq_refl eq_refl).
Defined.

Lemma getPlans_search_matches_witness :
  exists plan, In plan (plans Example.ownWorld) /\
    toExternal Example.ownPlan = toExternal plan /\
    ((exists c, prop plan "code" = JStr c /\ Js.contains_ci "START" c = true) \/
     (exists n, prop plan "name" = JStr n /\ Js.contains_ci "START" n = true)).
Proof.
  assert (In (toExternal Example.ownPlan) [toExternal Example.ownPlan]) as Hin
    by (left; reflexivity).
  revert Hin. generalize (toExternal Example.ownPlan) at 1 3.
  apply (getPlans_search_matches Scenario.searchRequest Example.ownWorld
           (exec (getPlans Scenario.searchRequest) Example.ownWorld).2
           (Scenario.page (exec (getPlans Scenario.searchRequest) Example.ownWorld).1).1
           [toExternal Example.ownPlan] " START " eq_refl).
  - assert (Js.trim " START " = "START") as -> by reflexivity. discriminate.
  - exact search_answer.
Defined.

End FurtherWitnesses.
